(** * Crepid dashboard: table renderer, currency formatter, upload handlers, FAQ accordion

    A shallow embedding of the browser dashboard's pure rendering logic
    (SectionTable, formatCurrency), of its upload handlers (handleUpload,
    uploadCSV) as effect traces over an explicit view state, and of the FAQ
    accordion's toggle.

    JavaScript numbers are IEEE-754 binary64 values; they are modelled by the
    Standard Library's [spec_float] at precision 53 and maximal exponent 1024,
    with its comparison and division. *)

From Stdlib Require Import ZArith NArith Bool List Ascii String Lia.
From Stdlib Require Import Floats.SpecFloat.
From Stdlib Require Import DecimalString DecimalPos DecimalN.
Import ListNotations.

Local Open Scope string_scope.

(** ** JavaScript numbers *)

Module Number.

Definition prec : Z := 53.
Definition emax : Z := 1024.

Definition t := spec_float.

Definition NaN : t := S754_nan.

(** The binary64 value nearest to an integer (exact below 2^53). *)
Definition of_Z (z : Z) : t := binary_normalize prec emax z 0 false.

(** The binary64 value nearest to [m / 10^k], as a JSON decimal literal
    with [k] fraction digits denotes. *)
Definition of_decimal (m : Z) (k : nat) : t :=
  match m with
  | Z0 => S754_zero false
  | Zpos p => SFdiv prec emax (S754_finite false p 0)
                    (S754_finite false (Z.to_pos (10 ^ Z.of_nat k)) 0)
  | Zneg p => SFdiv prec emax (S754_finite true p 0)
                    (S754_finite false (Z.to_pos (10 ^ Z.of_nat k)) 0)
  end.

Definition div : t -> t -> t := SFdiv prec emax.
Definition leb : t -> t -> bool := SFleb.
Definition ltb : t -> t -> bool := SFltb.

(** ToBoolean on a number: false for +0, -0 and NaN. *)
Definition truthy (x : t) : bool :=
  match x with
  | S754_zero _ | S754_nan => false
  | _ => true
  end.

(** [m * 2^e] rounded to an integer, ties away from zero (the magnitude
    only): the rounding mode "halfExpand" with no fraction digits. *)
Definition roundHalfExpand (m : positive) (e : Z) : N :=
  match e with
  | Z0 => Npos m
  | Zpos p => Npos (Pos.iter xO m p)
  | Zneg p =>
      let d := Npos (Pos.iter xO 1%positive p) in
      let q := N.div (Npos m) d in
      let r := N.modulo (Npos m) d in
      if N.leb d (2 * r) then N.succ q else q
  end.

(** From 2^53 on a double is a whole number [m * 2^e] with [e >= 1], and
    the host prints the shortest decimal that still denotes it, padded with
    zeros. [roundsBack m e c]: the whole number [c] lies in the rounding
    interval of [m * 2^e] (half the gap to either neighbour, the lower gap
    halved again at a power of two; the ends count when [m] is even). *)
Definition roundsBack (m e : positive) (c : N) : bool :=
  let M2 := (2 * (Npos m * 2 ^ Npos e))%N in
  let hiGap := (2 ^ Npos e)%N in
  let loGap := if Pos.eqb m 4503599627370496
               then (2 ^ (Npos e - 1))%N else (2 ^ Npos e)%N in
  if N.even (Npos m)
  then N.leb (M2 - loGap) (2 * c) && N.leb (2 * c) (M2 + hiGap)
  else N.ltb (M2 - loGap) (2 * c) && N.ltb (2 * c) (M2 + hiGap).

(** The multiple of [10^k] that denotes [m * 2^e], if there is one: the
    nearest of the two around it, the even one on a tie. *)
Definition shortestAt (m e : positive) (k : nat) : option N :=
  let M := (Npos m * 2 ^ Npos e)%N in
  let p := (10 ^ N.of_nat k)%N in
  let c1 := (M / p * p)%N in
  let c2 := (c1 + p)%N in
  match roundsBack m e c1, roundsBack m e c2 with
  | true, true =>
      Some (if N.ltb (M - c1) (c2 - M) then c1
            else if N.ltb (c2 - M) (M - c1) then c2
            else if N.even (c1 / p) then c1 else c2)
  | true, false => Some c1
  | false, true => Some c2
  | false, false => None
  end.

(** The most trailing zeros first. *)
Fixpoint shortestFrom (m e : positive) (k : nat) : N :=
  match shortestAt m e k with
  | Some c => c
  | None =>
      match k with
      | O => (Npos m * 2 ^ Npos e)%N
      | S k' => shortestFrom m e k'
      end
  end.

Definition shortestInteger (m e : positive) : N :=
  shortestFrom m e (N.to_nat (N.log2 (Npos m * 2 ^ Npos e) / 3 + 1)).

(** The whole number printed for [m * 2^e] with no fraction digits: below
    2^53 the exact value rounded half away from zero, from 2^53 on the
    shortest digits. *)
Definition displayedInteger (m : positive) (e : Z) : N :=
  match e with
  | Zpos p => shortestInteger m p
  | _ => roundHalfExpand m e
  end.

End Number.

Definition Number : Type := Number.t.

(** ** JavaScript strings (as UTF-8 byte strings) *)

(** ASCII case folding. No character outside ASCII lower-cases to a letter
    sequence that completes one of the keywords tested below, so the
    byte-wise folding decides the same column names as the host's. *)
Definition lower_ascii (c : ascii) : ascii :=
  let n := nat_of_ascii c in
  if andb (Nat.leb 65 n) (Nat.leb n 90) then ascii_of_nat (n + 32) else c.

Fixpoint toLowerCase (s : string) : string :=
  match s with
  | EmptyString => EmptyString
  | String c s' => String (lower_ascii c) (toLowerCase s')
  end.

(** [includes s sub]: [sub] occurs in [s] as a contiguous substring. *)
Fixpoint includes (s sub : string) : bool :=
  if prefix sub s then true
  else match s with
       | EmptyString => false
       | String _ s' => includes s' sub
       end.

(** ** JavaScript values held by a record cell

    The scalars of a parsed JSON document, undefined for a key that a record
    lacks, and the members every plain object inherits from Object.prototype
    (built-in functions, and under __proto__ the prototype object itself),
    named by their property name. *)

Inductive Value :=
| VUndefined
| VNull
| VBool (b : bool)
| VNumber (n : Number)
| VString (s : string)
| VInherited (name : string).

(** Locales and currencies the dashboard formats in. *)
Inductive Currency := INR | USD.

Inductive Locale := en_IN | en_US.

(** The host operations on strings that the platform, not this repository,
    defines: ToNumber on a string (StringToNumber), and the number formatter
    applied to a string argument. *)
Class JSHost := {
  StringToNumber : string -> Number;
  formatNumericString : Locale -> Currency -> string -> string
}.

Section Values.
Context `{JSHost}.

Definition ToBoolean (v : Value) : bool :=
  match v with
  | VUndefined | VNull => false
  | VBool b => b
  | VNumber n => Number.truthy n
  | VString s => negb (String.eqb s "")
  | VInherited _ => true
  end.

(** An inherited function or the prototype object converts through its
    string form (the function's source text, "[object Object]"), which is no
    numeric literal. *)
Definition ToNumber (v : Value) : Number :=
  match v with
  | VUndefined => Number.NaN
  | VNull => S754_zero false
  | VBool true => Number.of_Z 1
  | VBool false => S754_zero false
  | VNumber n => n
  | VString s => StringToNumber s
  | VInherited _ => Number.NaN
  end.

(** [value <= n] against a number literal: both sides go through ToNumber;
    a NaN on either side gives false. *)
Definition js_le (v : Value) (n : Number) : bool :=
  Number.leb (ToNumber v) n.

(** [amount == null]: true of null and undefined only. *)
Definition looselyNull (v : Value) : bool :=
  match v with
  | VUndefined | VNull => true
  | _ => false
  end.

End Values.

(** ** Intl.NumberFormat, style "currency", no fraction digits *)

Definition currencySymbol (c : Currency) : string :=
  match c with
  | INR => "₹"
  | USD => "$"
  end.

(** Grouping sizes: the least significant group, then every further one. *)
Definition groupingSizes (l : Locale) : nat * nat :=
  match l with
  | en_IN => (3, 2)
  | en_US => (3, 3)
  end.

(** Digits least significant first; [k] digits still fit the current group. *)
Fixpoint groupDigits (size k : nat) (ds : list ascii) : list ascii :=
  match ds with
  | [] => []
  | d :: ds' =>
      match k with
      | O => ","%char :: d :: groupDigits size (Nat.pred size) ds'
      | S k' => d :: groupDigits size k' ds'
      end
  end.

Definition digitsOf (n : N) : string := NilZero.string_of_uint (N.to_uint n).

Definition groupedDigits (l : Locale) (n : N) : string :=
  let '(first, size) := groupingSizes l in
  string_of_list_ascii
    (rev (groupDigits size first (rev (list_ascii_of_string (digitsOf n))))).

Definition signOf (s : bool) : string := if s then "-" else "".

(** The formatter on a number: sign, currency symbol, grouped digits of the
    whole number it displays (the exact value rounded half away from zero
    below 2^53, the shortest round-trip digits padded with zeros above). *)
Definition formatNumber (l : Locale) (c : Currency) (x : Number) : string :=
  match x with
  | S754_nan => currencySymbol c ++ "NaN"
  | S754_infinity s => signOf s ++ currencySymbol c ++ "∞"
  | S754_zero s => signOf s ++ currencySymbol c ++ "0"
  | S754_finite s m e =>
      signOf s ++ currencySymbol c ++ groupedDigits l (Number.displayedInteger m e)
  end.

Section Formatter.
Context `{JSHost}.

(** [new Intl.NumberFormat(locale, {style: "currency", currency, ...})
    .format(v)] with minimum and maximum fraction digits 0. *)
Definition NumberFormat_format (l : Locale) (c : Currency) (v : Value) : string :=
  match v with
  | VString s => formatNumericString l c s
  | _ => formatNumber l c (ToNumber v)
  end.

Definition usdRate : Number := Number.of_Z 83.

(** formatCurrency of the dashboard view, closed over the [currency] state. *)
Definition formatCurrency (currency : Currency) (amount : Value) : string :=
  if looselyNull amount then ""
  else match currency with
       | USD =>
           let converted := Number.div (ToNumber amount) usdRate in
           NumberFormat_format en_US USD (VNumber converted)
       | INR => NumberFormat_format en_IN INR amount
       end.

End Formatter.

(** ** Records and the generic table renderer *)

(** A record of the result document: its own properties in key order. *)
Definition Item : Type := list (string * Value).

Definition Object_keys (r : Item) : list string := map fst r.

(** The property names of Object.prototype, which every record inherits. *)
Definition objectPrototypeNames : list string :=
  [ "constructor"; "__defineGetter__"; "__defineSetter__"; "hasOwnProperty";
    "__lookupGetter__"; "__lookupSetter__"; "isPrototypeOf";
    "propertyIsEnumerable"; "toString"; "valueOf"; "__proto__";
    "toLocaleString" ].

(** What the prototype chain gives for a key the record does not own. *)
Definition inheritedMember (col : string) : Value :=
  if existsb (String.eqb col) objectPrototypeNames
  then VInherited col else VUndefined.

(** [item[col]]: the record's own property when it has one, else what it
    inherits under that name, else undefined. *)
Fixpoint get (item : Item) (col : string) : Value :=
  match item with
  | [] => inheritedMember col
  | (k, v) :: rest => if String.eqb k col then v else get rest col
  end.

(** The record owns the key. *)
Definition hasKey (item : Item) (col : string) : bool :=
  existsb (String.eqb col) (Object_keys item).

Record Style := {
  backgroundColor : option string;
  color : option string
}.

Definition noStyle : Style := {| backgroundColor := None; color := None |}.

(** A rendered <td>: its key, inline style and child value. *)
Record Cell := {
  cell_key : string;
  cell_style : Style;
  cell_value : Value
}.

(** A rendered table card: title, <th> texts, and one list of cells per row. *)
Record Card := {
  card_title : string;
  card_headers : list string;
  card_rows : list (list Cell)
}.

Definition red400 : string := "#F87171".
Definition amber400 : string := "#FBBF24".
Definition green400 : string := "#34D399".

Definition isCurrencyColumn (col : string) : bool :=
  includes (toLowerCase col) "cost"
  || includes (toLowerCase col) "gain"
  || includes (toLowerCase col) "value"
  || includes (toLowerCase col) "salary".

Definition isRoiColumn (col : string) : bool :=
  String.eqb (toLowerCase col) "roi".

Section Renderer.
Context `{JSHost}.

(** The body of [columns.map((col) => ...)] for one row. *)
Definition renderCell (formatCurrency : option (Value -> string))
           (item : Item) (col : string) : Cell :=
  let value := get item col in
  let value :=
    match formatCurrency with
    | Some f =>
        if isCurrencyColumn col
        then (if ToBoolean value then VString (f value) else value)
        else value
    | None => value
    end in
  let cellStyle :=
    if isRoiColumn col then
      {| backgroundColor :=
           Some (if js_le value (Number.of_Z 7) then red400
                 else if js_le value (Number.of_Z 14) then amber400
                 else green400);
         color := Some "#000" |}
    else noStyle in
  {| cell_key := col; cell_style := cellStyle; cell_value := value |}.

(** SectionTable: [None] is the [null] it returns for a missing or empty
    collection ([items] absent is [None]). *)
Definition SectionTable (title : string) (items : option (list Item))
           (formatCurrency : option (Value -> string)) : option Card :=
  match items with
  | None | Some [] => None
  | Some (first :: rest) =>
      let columns := Object_keys first in
      Some {| card_title := title;
              card_headers := columns;
              card_rows :=
                map (fun item => map (renderCell formatCurrency item) columns)
                    (first :: rest) |}
  end.

End Renderer.

(** The cell at row [i], column [j] of a rendered table. *)
Definition cellAt (card : Card) (i j : nat) : option Cell :=
  match nth_error (card_rows card) i with
  | Some row => nth_error row j
  | None => None
  end.

(** ** The result document and the dashboard's table section *)

Record Hiring := {
  NewHires : Value;
  employees : option (list Item)
}.

Record DashboardResult := {
  activities_with_metrics : option (list Item);
  rebalance : option (list Item);
  training : option (list Item);
  appraisal : option (list Item);
  risks : option (list Item);
  hiring : option Hiring
}.

(** [data.hiring?.employees] *)
Definition hiring_employees (data : DashboardResult) : option (list Item) :=
  match hiring data with
  | Some h => employees h
  | None => None
  end.

Inductive Collection :=
| ActivitiesWithMetrics | Rebalance | HiringEmployees | Training | Appraisal | Risks.

Definition collection (data : DashboardResult) (c : Collection) : option (list Item) :=
  match c with
  | ActivitiesWithMetrics => activities_with_metrics data
  | Rebalance => rebalance data
  | HiringEmployees => hiring_employees data
  | Training => training data
  | Appraisal => appraisal data
  | Risks => risks data
  end.

Section Dashboard.
Context `{JSHost}.

(** One <SectionTable .../> of the "Tables Section", as the view calls it. *)
Definition tableSection (currency : Currency) (data : DashboardResult)
           (c : Collection) : option Card :=
  match c with
  | ActivitiesWithMetrics =>
      SectionTable "Activities with Metrics" (activities_with_metrics data)
                   (Some (formatCurrency currency))
  | Rebalance =>
      SectionTable "Rebalance Suggestions" (rebalance data) None
  | HiringEmployees =>
      SectionTable "Hiring" (hiring_employees data) (Some (formatCurrency currency))
  | Training =>
      SectionTable "Training Recommendations" (training data)
                   (Some (formatCurrency currency))
  | Appraisal =>
      SectionTable "Appraisal Suggestions" (appraisal data) None
  | Risks =>
      SectionTable "Risk Flags" (risks data) None
  end.

(** The six table sections in display order. *)
Definition tablesSection (currency : Currency) (data : DashboardResult)
  : list (option Card) :=
  map (tableSection currency data)
      [ActivitiesWithMetrics; Rebalance; HiringEmployees; Training; Appraisal; Risks].

End Dashboard.

(** ** Upload: effects, the network, and the handler monad *)

Record File := { file_name : string }.

(** A thrown JavaScript error: constructor name and message. *)
Record JsError := { error_name : string; error_message : string }.

Definition Error (message : string) : JsError :=
  {| error_name := "Error"; error_message := message |}.

Inductive Result (A : Type) :=
| Ok (a : A)
| Throw (e : JsError).
Arguments Ok {A} a.
Arguments Throw {A} e.

(** The multipart body: its parts in append order. *)
Definition FormData : Type := list (string * File).

(** What a resolved fetch gives: the status, and what [res.json()] will
    resolve to (the parsed body) or reject with (a parse failure). *)
Record Response := {
  status : Z;
  json : Result DashboardResult
}.

(** [res.ok]: the status is in the range 200-299. *)
Definition ok (res : Response) : bool :=
  (200 <=? status res)%Z && (status res <=? 299)%Z.

(** The outcome of the one request: rejected (network failure) or resolved. *)
Definition Network : Type := Result Response.

Inductive Effect :=
| Alert (message : string)
| ConsoleError (label : option string) (err : JsError)
| Fetch (url method : string) (body : FormData)
| PreventDefault.

(** Handlers run against the network's answer and a component state; they
    return the effects performed in order, the state reached, and a value or
    a thrown error. *)
Definition M (S A : Type) : Type := Network -> S -> list Effect * S * Result A.

Definition ret {S A} (a : A) : M S A := fun _ st => ([], st, Ok a).

Definition bind {S A B} (c : M S A) (k : A -> M S B) : M S B :=
  fun net st =>
    match c net st with
    | (tr, st', Ok a) =>
        let '(tr', st'', r) := k a net st' in ((tr ++ tr')%list, st'', r)
    | (tr, st', Throw e) => (tr, st', Throw e)
    end.

Declare Scope handler_scope.
Delimit Scope handler_scope with handler.
Notation "x <- c ;; k" := (bind c (fun x => k))
  (at level 61, c at next level, right associativity) : handler_scope.
Notation "c ;; k" := (bind c (fun _ => k))
  (at level 61, right associativity) : handler_scope.

Definition throw {S A} (e : JsError) : M S A := fun _ st => ([], st, Throw e).

Definition perform {S} (ev : Effect) : M S unit := fun _ st => ([ev], st, Ok tt).

Definition modify {S} (f : S -> S) : M S unit := fun _ st => ([], f st, Ok tt).

(** try { body } catch (err) { handler err } *)
Definition tryCatch {S A} (body : M S A) (handler : JsError -> M S A) : M S A :=
  fun net st =>
    match body net st with
    | (tr, st', Ok a) => (tr, st', Ok a)
    | (tr, st', Throw e) =>
        let '(tr', st'', r) := handler e net st' in ((tr ++ tr')%list, st'', r)
    end.

(** try { body } finally { fin }: [fin] runs either way, and the body's
    completion stands unless [fin] itself throws. *)
Definition tryFinally {S A} (body : M S A) (fin : M S unit) : M S A :=
  fun net st =>
    let '(tr, st', r) := body net st in
    match fin net st' with
    | (tr', st'', Ok _) => ((tr ++ tr')%list, st'', r)
    | (tr', st'', Throw e) => ((tr ++ tr')%list, st'', Throw e)
    end.

(** [await fetch(url, {method, body})]: the request is issued, then the
    network's answer is returned or thrown. *)
Definition fetch {S} (url method : string) (body : FormData) : M S Response :=
  fun net st => ([Fetch url method body], st, net).

(** [await res.json()] *)
Definition res_json {S} (res : Response) : M S DashboardResult :=
  fun _ st => ([], st, json res).

Definition alert {S} (message : string) : M S unit := perform (Alert message).

Local Open Scope handler_scope.

(** *** The upload client (lib/api) *)

Definition backendUrl : string :=
  "https://crepid-deployable.onrender.com/api/upload-csv".

Definition uploadCSV {S} (rosterFile activitiesFile skillFile : File)
  : M S DashboardResult :=
  let formData := [("roster", rosterFile);
                   ("activities", activitiesFile);
                   ("skill_library", skillFile)] in
  res <- fetch backendUrl "POST" formData ;;
  if negb (ok res) then throw (Error "Failed to upload CSVs")
  else res_json res.

Definition get_state {S} : M S S := fun _ st => ([], st, Ok st).

Definition string_of_Z (z : Z) : string := NilZero.string_of_int (Z.to_int z).

(** *** The dashboard view's own upload handler *)

Module CrepidDashboard.

Record State := {
  rosterFile : option File;
  activitiesFile : option File;
  skillsFile : option File;
  loading : bool;
  data : option DashboardResult;
  currency : Currency
}.

Definition initial : State :=
  {| rosterFile := None; activitiesFile := None; skillsFile := None;
     loading := false; data := None; currency := INR |}.

Definition setLoading (b : bool) (st : State) : State :=
  {| rosterFile := rosterFile st; activitiesFile := activitiesFile st;
     skillsFile := skillsFile st; loading := b; data := data st;
     currency := currency st |}.

Definition setData (d : DashboardResult) (st : State) : State :=
  {| rosterFile := rosterFile st; activitiesFile := activitiesFile st;
     skillsFile := skillsFile st; loading := loading st; data := Some d;
     currency := currency st |}.

(** The currency toggle button's onClick. *)
Definition toggleCurrency (st : State) : State :=
  {| rosterFile := rosterFile st; activitiesFile := activitiesFile st;
     skillsFile := skillsFile st; loading := loading st; data := data st;
     currency := match currency st with INR => USD | USD => INR end |}.

Definition handleUpload : M State unit :=
  st <- get_state ;;
  match rosterFile st, activitiesFile st, skillsFile st with
  | Some roster, Some activities, Some skills =>
      modify (setLoading true) ;;
      let formData := [("roster", roster);
                       ("activities", activities);
                       ("skills", skills)] in
      tryCatch
        (res <- fetch backendUrl "POST" formData ;;
         if negb (ok res)
         then throw (Error ("Server responded with status "
                            ++ string_of_Z (status res)))
         else
           result <- res_json res ;;
           modify (setData result))
        (fun err =>
           perform (ConsoleError (Some "Upload failed:") err) ;;
           alert "Upload failed! Check console for details.") ;;
      modify (setLoading false)
  | _, _, _ => alert "Please select all three files!"
  end.

End CrepidDashboard.

(** *** The uploader form, which calls the upload client and stores the
    result in the shared application context *)

Module CSVUploader.

(** The component's loading flag and the context's dashboardData. *)
Record State := {
  loading : bool;
  dashboardData : option DashboardResult
}.

Definition initial : State := {| loading := false; dashboardData := None |}.

Definition setLoading (b : bool) (st : State) : State :=
  {| loading := b; dashboardData := dashboardData st |}.

Definition setDashboardData (d : DashboardResult) (st : State) : State :=
  {| loading := loading st; dashboardData := Some d |}.

(** The submit event: [e.target.<name>.files[0]] for the three inputs. *)
Record SubmitEvent := {
  roster : option File;
  activities : option File;
  skill_library : option File
}.

Definition handleUpload (e : SubmitEvent) : M State unit :=
  perform PreventDefault ;;
  match roster e, activities e, skill_library e with
  | Some roster, Some activities, Some skill_library =>
      tryFinally
        (tryCatch
           (modify (setLoading true) ;;
            data <- uploadCSV roster activities skill_library ;;
            modify (setDashboardData data) ;;
            alert "CSV files uploaded and processed successfully!")
           (fun err =>
              perform (ConsoleError None err) ;;
              alert "Error uploading files"))
        (modify (setLoading false))
  | _, _, _ => alert "All files required!"
  end.

End CSVUploader.

Local Close Scope handler_scope.

(** ** The FAQ accordion *)

Module FAQSection.

Record FAQ := { question : string; answer : string }.

(** [openIndex]: null, or the index of the expanded item. *)
Definition State : Type := option nat.

Definition initial : State := None.

(** [openIndex === index] *)
Definition isOpen (openIndex : State) (index : nat) : bool :=
  match openIndex with
  | Some i => Nat.eqb i index
  | None => false
  end.

Definition toggleFAQ (openIndex : State) (index : nat) : State :=
  if isOpen openIndex index then None else Some index.

(** One rendered item: its key, the question, whether the chevron points
    up, and the answer panel when it is shown. *)
Record FAQCard := {
  card_index : nat;
  card_question : string;
  chevronUp : bool;
  card_content : option string
}.

Definition renderItem (openIndex : State) (index : nat) (faq : FAQ) : FAQCard :=
  {| card_index := index;
     card_question := question faq;
     chevronUp := isOpen openIndex index;
     card_content := if isOpen openIndex index then Some (answer faq) else None |}.

(** [faqs.map((faq, index) => ...)], the indices counted from [index]. *)
Fixpoint renderFrom (openIndex : State) (index : nat) (faqs : list FAQ) : list FAQCard :=
  match faqs with
  | [] => []
  | faq :: rest => renderItem openIndex index faq :: renderFrom openIndex (S index) rest
  end.

Definition render (openIndex : State) (faqs : list FAQ) : list FAQCard :=
  renderFrom openIndex 0 faqs.

Definition expanded (c : FAQCard) : bool :=
  match card_content c with
  | Some _ => true
  | None => false
  end.

(** The state after a sequence of header clicks, from the initial one. *)
Definition afterClicks (clicks : list nat) : State :=
  fold_left toggleFAQ clicks initial.

End FAQSection.

(** ** Vocabulary of the properties *)


(** "Empty/null" cell values: a missing value, null, or the empty string. *)
Definition emptyOrNull (v : Value) : bool :=
  match v with
  | VUndefined | VNull => true
  | VString s => String.eqb s ""
  | _ => false
  end.





(** A failed upload: the request is rejected (network failure), the status
    is outside the success range, or the body does not parse as JSON. *)
Definition uploadFails (net : Network) : bool :=
  match net with
  | Throw _ => true
  | Ok res =>
      negb (ok res) || match json res with Throw _ => true | Ok _ => false end
  end.

(** The three components of a handler's run. *)
Definition trace_of {S A} (out : list Effect * S * Result A) : list Effect :=
  fst (fst out).

Definition state_of {S A} (out : list Effect * S * Result A) : S :=
  snd (fst out).

Definition result_of {S A} (out : list Effect * S * Result A) : Result A :=
  snd out.

(** A collection that is absent or an empty sequence. *)
Definition emptyOrAbsent (items : option (list Item)) : bool :=
  match items with
  | None | Some [] => true
  | Some (_ :: _) => false
  end.

(** ** A sample collection *)

(** Training recommendations with heterogeneous records: the second lacks
    Expected_Gain and carries an extra key, the third lacks ROI. *)
Definition sampleTraining : list Item :=
  [ [("Employee", VString "Asha");
     ("Training_Cost", VNumber (Number.of_Z 8300));
     ("Expected_Gain", VNumber (Number.of_Z 0));
     ("ROI", VNumber (Number.of_Z 7))];
    [("Employee", VString "Ravi");
     ("Training_Cost", VNumber (Number.of_Z 100));
     ("ROI", VNumber (Number.of_decimal 1401 2));
     ("Notes", VString "priority")];
    [("Employee", VString "Meera");
     ("Training_Cost", VNull);
     ("Expected_Gain", VNumber (Number.of_Z 4150))] ].


(** A result document and view states holding it, with all three files
    selected. *)
Definition sampleResult : DashboardResult :=
  {| activities_with_metrics := Some sampleTraining;
     rebalance := Some [];
     training := Some sampleTraining;
     appraisal := None;
     risks := None;
     hiring := None |}.

Definition sampleFiles : File * File * File :=
  ({| file_name := "roster.csv" |},
   {| file_name := "activities.csv" |},
   {| file_name := "skills.csv" |}).

Definition populatedDashboard : CrepidDashboard.State :=
  {| CrepidDashboard.rosterFile := Some (fst (fst sampleFiles));
     CrepidDashboard.activitiesFile := Some (snd (fst sampleFiles));
     CrepidDashboard.skillsFile := Some (snd sampleFiles);
     CrepidDashboard.loading := false;
     CrepidDashboard.data := Some sampleResult;
     CrepidDashboard.currency := INR |}.

Definition populatedUploader : CSVUploader.State :=
  {| CSVUploader.loading := false;
     CSVUploader.dashboardData := Some sampleResult |}.

Definition fullSubmit : CSVUploader.SubmitEvent :=
  {| CSVUploader.roster := Some (fst (fst sampleFiles));
     CSVUploader.activities := Some (snd (fst sampleFiles));
     CSVUploader.skill_library := Some (snd sampleFiles) |}.

(** The server answers 500 with a body that is not JSON. *)
Definition serverError : Network :=
  Ok {| status := 500; json := Throw (Error "Unexpected token") |}.

(** ** A host for running the model on concrete documents *)

(** StringToNumber on plain decimal literals: an optional minus sign, digits,
    an optional fraction; the empty string is +0 and any other string NaN.
    The value is the correctly rounded binary64 quotient. *)
Module DecimalHost.

Definition digitValue (c : ascii) : option N :=
  let n := N_of_ascii c in
  if andb (N.leb 48 n) (N.leb n 57) then Some (n - 48)%N else None.

(** Digits up to the end or a single point; returns the integer read so
    far and the number of fraction digits. *)
Fixpoint readDigits (s : string) (acc : N) (seenPoint : bool) (frac : nat)
  : option (N * nat) :=
  match s with
  | EmptyString => Some (acc, frac)
  | String c rest =>
      match digitValue c with
      | Some d =>
          readDigits rest (10 * acc + d)%N seenPoint
                     (if seenPoint then S frac else frac)
      | None =>
          if andb (Ascii.eqb c ".") (negb seenPoint)
          then readDigits rest acc true frac
          else None
      end
  end.

Definition hasDigit (s : string) : bool :=
  existsb (fun c => match digitValue c with Some _ => true | None => false end)
          (list_ascii_of_string s).

Definition unsignedToNumber (neg : bool) (s : string) : Number :=
  if hasDigit s then
    match readDigits s 0 false 0 with
    | Some (N0, _) => S754_zero neg
    | Some (Npos p, k) =>
        Number.of_decimal (if neg then Zneg p else Zpos p) k
    | None => Number.NaN
    end
  else Number.NaN.

Definition stringToNumber (s : string) : Number :=
  match s with
  | EmptyString => S754_zero false
  | String "-" rest => unsignedToNumber true rest
  | _ => unsignedToNumber false s
  end.

End DecimalHost.

#[export] Instance decimalHost : JSHost := {|
  StringToNumber := DecimalHost.stringToNumber;
  formatNumericString := fun l c s => formatNumber l c (DecimalHost.stringToNumber s)
|}.

(** ** The rest of the dashboard view *)

Module DashboardView.

Import CrepidDashboard.

(** The three file inputs' onChange: [files[0]] is undefined when the
    selection is cancelled. *)
Definition setRosterFile (f : option File) (st : State) : State :=
  {| rosterFile := f; activitiesFile := activitiesFile st;
     skillsFile := skillsFile st; loading := loading st; data := data st;
     currency := currency st |}.

Definition setActivitiesFile (f : option File) (st : State) : State :=
  {| rosterFile := rosterFile st; activitiesFile := f;
     skillsFile := skillsFile st; loading := loading st; data := data st;
     currency := currency st |}.

Definition setSkillsFile (f : option File) (st : State) : State :=
  {| rosterFile := rosterFile st; activitiesFile := activitiesFile st;
     skillsFile := f; loading := loading st; data := data st;
     currency := currency st |}.

(** The upload button: disabled and relabelled while loading. *)
Record UploadButton := {
  disabled : bool;
  label : string
}.

Definition uploadButton (st : State) : UploadButton :=
  {| disabled := loading st;
     label := if loading st then "Uploading..." else "Upload & Compute" |}.

(** What a summary card shows: an array length (a natural number) or a
    value passed through. *)
Inductive CardValue :=
| Count (n : nat)
| Passed (v : Value).

Record DataCardView := {
  dc_className : string;
  dc_valueClassName : string;
  dc_value : CardValue;
  dc_title : string
}.

Definition DataCard (title : string) (value : CardValue) (color : string)
  : DataCardView :=
  {| dc_className := "bg-gradient-to-br from-" ++ color ++ "/10 to-" ++ color
                     ++ "/5 border-" ++ color ++ "/20";
     dc_valueClassName := "text-2xl font-bold text-" ++ color;
     dc_value := value;
     dc_title := title |}.

(** [items?.length || 0] *)
Definition lengthOrZero (items : option (list Item)) : nat :=
  match items with
  | Some l => if Nat.eqb (List.length l) 0 then 0 else List.length l
  | None => 0
  end.

(** [data.hiring?.NewHires || 0] *)
Definition newHiresOrZero (d : DashboardResult) : Value :=
  let v := match hiring d with
           | Some h => NewHires h
           | None => VUndefined
           end in
  if ToBoolean v then v else VNumber (S754_zero false).

Definition summaryCards (d : DashboardResult) : list DataCardView :=
  [ DataCard "Metrics Count" (Count (lengthOrZero (activities_with_metrics d))) "primary";
    DataCard "Rebalance Suggestions" (Count (lengthOrZero (rebalance d))) "primary";
    DataCard "Training Recommendations" (Count (lengthOrZero (training d))) "primary";
    DataCard "New Hires" (Passed (newHiresOrZero d)) "primary" ].

Definition dashboardFaqs : list FAQSection.FAQ :=
  [ {| FAQSection.question := "What does TIm mean?";
       FAQSection.answer := "TIm (Task Importance Metric) is calculated as TimeFreq × Importance for each activity." |};
    {| FAQSection.question := "What is WPI?";
       FAQSection.answer := "WPI (Weighted Performance Index) is the ratio of NetValue to DollarValue, measuring efficiency of employee output." |};
    {| FAQSection.question := "How are rebalancing suggestions made?";
       FAQSection.answer := "Activities with high importance but low quality are suggested to be transferred to employees with better skill points." |};
    {| FAQSection.question := "When do hiring recommendations appear?";
       FAQSection.answer := "If workload exceeds the defined threshold (e.g., 140 TI), the system suggests new hires and estimates a budget." |};
    {| FAQSection.question := "How is ROI in training calculated?";
       FAQSection.answer := "ROI = (Expected Gain – Training Cost) ÷ Training Cost, using lift percentages from the skill library." |} ].

(** What is rendered under [data && (...)]. *)
Record Body := {
  toggleLabel : string;
  summary : list DataCardView;
  tables : list (option Card);
  manualUrl : string;
  faqs : list FAQSection.FAQ
}.

Section Render.
Context `{JSHost}.

Definition renderBody (cur : Currency) (d : DashboardResult) : Body :=
  {| toggleLabel := "Switch to " ++ match cur with INR => "USD" | USD => "INR" end;
     summary := summaryCards d;
     tables := tablesSection cur d;
     manualUrl := "/CREPIDSystemManual.pdf";
     faqs := dashboardFaqs |}.

(** The view: the upload button, and the body when there is data. *)
Definition render (st : State) : UploadButton * option Body :=
  (uploadButton st,
   match data st with
   | Some d => Some (renderBody (currency st) d)
   | None => None
   end).

End Render.

(** What the user can do between renders. The toggle button exists only
    under [data && (...)], the upload button is disabled while loading. *)
Inductive Event :=
| SelectRoster (f : option File)
| SelectActivities (f : option File)
| SelectSkills (f : option File)
| ClickUpload (net : Network)
| ClickToggle.

Definition step (ev : Event) (st : State) : list Effect * State :=
  match ev with
  | SelectRoster f => ([], setRosterFile f st)
  | SelectActivities f => ([], setActivitiesFile f st)
  | SelectSkills f => ([], setSkillsFile f st)
  | ClickUpload net =>
      if loading st then ([], st)
      else (trace_of (handleUpload net st), state_of (handleUpload net st))
  | ClickToggle =>
      match data st with
      | Some _ => ([], toggleCurrency st)
      | None => ([], st)
      end
  end.

(** A session: the events in order, each handler run to completion. *)
Fixpoint run (events : list Event) (st : State) : list Effect * State :=
  match events with
  | [] => ([], st)
  | ev :: rest =>
      let '(tr, st') := step ev st in
      let '(tr', st'') := run rest st' in
      ((tr ++ tr')%list, st'')
  end.

(** The responses of the session's upload clicks. *)
Fixpoint answers (events : list Event) : list Network :=
  match events with
  | [] => []
  | ClickUpload net :: rest => net :: answers rest
  | _ :: rest => answers rest
  end.

End DashboardView.

(** ** The other upload clients *)

Local Open Scope handler_scope.

(** The client that posts to a local backend. *)
Module ApiLocal.

Definition uploadCSV {S} (rosterFile activitiesFile skillFile : File)
  : M S DashboardResult :=
  let formData := [("roster", rosterFile);
                   ("activities", activitiesFile);
                   ("skill_library", skillFile)] in
  res <- fetch "http://localhost:8000/api/upload-csv" "POST" formData ;;
  if negb (ok res) then throw (Error "Failed to upload CSVs")
  else res_json res.

End ApiLocal.

(** The client of /lib/api.js, which puts the response text in its error
    and logs what it rethrows. [text] is what [res.text()] resolves to or
    rejects with. *)
Module ApiLogged.

Definition res_text {S} (text : Result string) : M S string :=
  fun _ st => ([], st, text).

Definition uploadCSV {S} (text : Result string)
           (rosterFile activitiesFile skillFile : File) : M S DashboardResult :=
  tryCatch
    (let formData := [("roster", rosterFile);
                      ("activities", activitiesFile);
                      ("skill_library", skillFile)] in
     res <- fetch "https://crepid-deployable.onrender.com/api/upload-csv"
                  "POST" formData ;;
     if negb (ok res) then
       errorText <- res_text text ;;
       throw (Error ("Failed to upload CSVs: " ++ errorText))
     else
       data <- res_json res ;;
       ret data)
    (fun err =>
       perform (ConsoleError (Some "Upload error:") err) ;;
       throw err).

End ApiLogged.

(** The uploader form's handler over whichever client "@/lib/api" resolves
    to. *)
Module CSVUploaderWith.

Import CSVUploader.

Definition handleUpload
           (uploadCSV : File -> File -> File -> M State DashboardResult)
           (e : SubmitEvent) : M State unit :=
  perform PreventDefault ;;
  match roster e, activities e, skill_library e with
  | Some roster, Some activities, Some skill_library =>
      tryFinally
        (tryCatch
           (modify (setLoading true) ;;
            data <- uploadCSV roster activities skill_library ;;
            modify (setDashboardData data) ;;
            alert "CSV files uploaded and processed successfully!")
           (fun err =>
              perform (ConsoleError None err) ;;
              alert "Error uploading files"))
        (modify (setLoading false))
  | _, _, _ => alert "All files required!"
  end.

End CSVUploaderWith.

Local Close Scope handler_scope.

(** ** Sessions of the uploader form

    The shared context starts with no dashboard data (AppProvider); each
    submit runs the form's handler to completion against its answer. *)
Module UploaderSession.

Import CSVUploader.

Fixpoint run (submits : list (SubmitEvent * Network)) (st : State)
  : list Effect * State :=
  match submits with
  | [] => ([], st)
  | (e, net) :: rest =>
      let out := handleUpload e net st in
      let '(tr', st') := run rest (state_of out) in
      ((trace_of out ++ tr')%list, st')
  end.

End UploaderSession.

(** ** Sample sessions *)

Definition successAnswer : Network :=
  Ok {| status := 200; json := Ok sampleResult |}.

(** Select the three files, fail once, then succeed. *)
Definition sampleSession : list DashboardView.Event :=
  [ DashboardView.SelectRoster (Some (fst (fst sampleFiles)));
    DashboardView.SelectActivities (Some (snd (fst sampleFiles)));
    DashboardView.SelectSkills (Some (snd sampleFiles));
    DashboardView.ClickUpload serverError;
    DashboardView.ClickUpload successAnswer ].

Definition sampleSubmits : list (CSVUploader.SubmitEvent * Network) :=
  [ (fullSubmit, serverError); (fullSubmit, successAnswer) ].

(** ** Further vocabulary *)

Definition isFetch (e : Effect) : bool :=
  match e with
  | Fetch _ _ _ => true
  | _ => false
  end.

Definition isAlert (e : Effect) : bool :=
  match e with
  | Alert _ => true
  | _ => false
  end.

(** The number of rows a table section shows. *)
Definition rowsShown (section : option Card) : nat :=
  match section with
  | Some card => List.length (card_rows card)
  | None => 0
  end.

(** The ROI colours from worst to best. *)
Definition colourRank (bg : option string) : option nat :=
  match bg with
  | Some c =>
      if String.eqb c red400 then Some 0
      else if String.eqb c amber400 then Some 1
      else if String.eqb c green400 then Some 2
      else None
  | None => None
  end.

(** A successful answer carrying [body]. *)
Definition succeedsWith (net : Network) (body : DashboardResult) : Prop :=
  exists res, net = Ok res /\ ok res = true /\ json res = Ok body.

(** * Properties *)

(** ** Comparison of binary64 values *)

Lemma SFcompare_antisym (x y : spec_float) (c : comparison) :
  SFcompare x y = Some c -> SFcompare y x = Some (CompOpp c).
Proof.
  destruct x as [sx|sx| |sx mx ex], y as [sy|sy| |sy my ey]; cbn;
    try discriminate;
    try (destruct sx); try (destruct sy);
    intros E; inversion E; subst; clear E; cbn; try reflexivity;
    rewrite (Z.compare_antisym ey ex);
    destruct (ey ?= ex)%Z; cbn; try reflexivity;
    pose proof (Pos.compare_cont_antisym mx my Eq) as A; cbn in A;
    f_equal; now rewrite A.
Qed.

Lemma ltb_not_leb (a n : Number) :
  Number.ltb a n = true -> Number.leb n a = false.
Proof.
  unfold Number.ltb, Number.leb, SFltb, SFleb.
  destruct (SFcompare a n) as [[| |]|] eqn:E; try discriminate.
  intros _. now rewrite (SFcompare_antisym _ _ _ E).
Qed.

Lemma of_Z_7 : Number.of_Z 7 = S754_finite false 7881299347898368 (-50).
Proof. vm_compute. reflexivity. Qed.

Lemma of_Z_14 : Number.of_Z 14 = S754_finite false 7881299347898368 (-49).
Proof. vm_compute. reflexivity. Qed.

(** Above 14 is above 7. *)
Lemma gt_14_not_le_7 (n : Number) :
  Number.ltb (Number.of_Z 14) n = true -> Number.leb n (Number.of_Z 7) = false.
Proof.
  rewrite of_Z_7, of_Z_14.
  unfold Number.ltb, Number.leb, SFltb, SFleb.
  destruct n as [s|s| |s m e]; cbn [SFcompare]; try (destruct s);
    try discriminate; try reflexivity.
  destruct (Z.compare_spec (-49) e) as [E|E|E];
    destruct (Z.compare_spec e (-50)) as [F|F|F];
    try lia; try discriminate.
Qed.

(** ** Column names *)

Lemma roi_column_not_currency (col : string) :
  isRoiColumn col = true -> isCurrencyColumn col = false.
Proof.
  unfold isRoiColumn, isCurrencyColumn. intros E.
  apply String.eqb_eq in E. rewrite E. reflexivity.
Qed.

(** ** Lookup in a record *)

Lemma get_missing (item : Item) (col : string) :
  hasKey item col = false -> get item col = inheritedMember col.
Proof.
  unfold hasKey, Object_keys.
  induction item as [|[k v] rest IH]; cbn; [reflexivity|].
  rewrite (String.eqb_sym col k).
  destruct (String.eqb k col); cbn; [discriminate | exact IH].
Qed.

Lemma inheritedMember_cases (col : string) :
  (In col objectPrototypeNames /\ inheritedMember col = VInherited col) \/
  (~ In col objectPrototypeNames /\ inheritedMember col = VUndefined).
Proof.
  unfold inheritedMember.
  destruct (existsb (String.eqb col) objectPrototypeNames) eqn:E.
  - left. apply existsb_exists in E. destruct E as (n & I & Q).
    apply String.eqb_eq in Q. subst n. now split.
  - right. split; [|reflexivity]. intros I.
    assert (existsb (String.eqb col) objectPrototypeNames = true) as T.
    { apply existsb_exists. exists col. split; [exact I | apply String.eqb_refl]. }
    congruence.
Qed.

(** No inherited name is an ROI column. *)
Lemma roi_column_not_inherited (col : string) :
  isRoiColumn col = true -> inheritedMember col = VUndefined.
Proof.
  intros R. destruct (inheritedMember_cases col) as [[I _] | [_ U]]; [|exact U].
  cbn in I.
  repeat (destruct I as [<- | I]; [discriminate R|]). destruct I.
Qed.

Lemma get_missing_roi (item : Item) (col : string) :
  hasKey item col = false -> isRoiColumn col = true -> get item col = VUndefined.
Proof.
  intros M R. now rewrite (get_missing _ _ M), (roi_column_not_inherited _ R).
Qed.

(** ** Cells of a rendered table *)

Section RendererFacts.
Context `{JSHost}.

(** A non-empty collection renders a table whose headers are the first
    record's keys and whose cell at row [i], column [j] is [renderCell] on
    record [i] and header [j]. *)
Lemma SectionTable_cell title first rest f i item j col :
  nth_error (first :: rest) i = Some item ->
  nth_error (Object_keys first) j = Some col ->
  exists card,
    SectionTable title (Some (first :: rest)) f = Some card /\
    card_title card = title /\
    card_headers card = Object_keys first /\
    cellAt card i j = Some (renderCell f item col).
Proof.
  intros Hi Hj. eexists. split; [reflexivity|].
  split; [reflexivity|]. split; [reflexivity|].
  unfold cellAt; cbn [card_rows].
  rewrite (map_nth_error _ _ _ Hi).
  now apply map_nth_error.
Qed.

Lemma renderCell_roi_value f item col :
  isRoiColumn col = true ->
  cell_value (renderCell f item col) = get item col.
Proof.
  intros R. unfold renderCell; cbn.
  rewrite (roi_column_not_currency _ R). now destruct f.
Qed.

Lemma renderCell_roi_style f item col :
  isRoiColumn col = true ->
  cell_style (renderCell f item col) =
  {| backgroundColor :=
       Some (if js_le (get item col) (Number.of_Z 7) then red400
             else if js_le (get item col) (Number.of_Z 14) then amber400
             else green400);
     color := Some "#000" |}.
Proof.
  intros R. unfold renderCell.
  rewrite (roi_column_not_currency _ R), R. now destruct f.
Qed.

Lemma renderCell_roi_background f item col :
  isRoiColumn col = true ->
  backgroundColor (cell_style (renderCell f item col)) =
  Some (if js_le (get item col) (Number.of_Z 7) then red400
        else if js_le (get item col) (Number.of_Z 14) then amber400
        else green400).
Proof.
  intros R. now rewrite (renderCell_roi_style _ _ _ R).
Qed.

End RendererFacts.

Section CellFacts.
Context `{JSHost}.

(** A key the record neither owns nor inherits gives an undefined cell,
    formatter or not. *)
Lemma renderCell_missing f item col :
  hasKey item col = false ->
  inheritedMember col = VUndefined ->
  cell_value (renderCell f item col) = VUndefined.
Proof.
  intros M U. unfold renderCell; cbn [cell_value].
  rewrite (get_missing _ _ M), U.
  destruct f; [|reflexivity].
  now destruct (isCurrencyColumn col).
Qed.


Lemma renderCell_key f item col : cell_key (renderCell f item col) = col.
Proof. reflexivity. Qed.

End CellFacts.


(** ** ROI colouring *)

(** C2: in a table with a column whose lower-cased name is "roi", a cell
    holding the number [n] gets the red background when n <= 7, the amber one
    when 7 < n <= 14 and the green one when n > 14; 7 is red, 7.01, 8 and 14
    are amber, 14.01 and 15 are green. The comparisons are those of binary64
    numbers. *)
Theorem C2_roi_background_by_threshold `{JSHost} :
  forall title first rest f i item j col n,
    nth_error (first :: rest) i = Some item ->
    nth_error (Object_keys first) j = Some col ->
    isRoiColumn col = true ->
    get item col = VNumber n ->
    exists card cell,
      SectionTable title (Some (first :: rest)) f = Some card /\
      cellAt card i j = Some cell /\
      cell_value cell = VNumber n /\
      let bg := backgroundColor (cell_style cell) in
      (Number.leb n (Number.of_Z 7) = true -> bg = Some red400) /\
      (Number.ltb (Number.of_Z 7) n = true ->
       Number.leb n (Number.of_Z 14) = true -> bg = Some amber400) /\
      (Number.ltb (Number.of_Z 14) n = true -> bg = Some green400) /\
      (n = Number.of_Z 7 -> bg = Some red400) /\
      (n = Number.of_decimal 701 2 \/ n = Number.of_Z 8 \/ n = Number.of_Z 14 ->
       bg = Some amber400) /\
      (n = Number.of_decimal 1401 2 \/ n = Number.of_Z 15 -> bg = Some green400).
Proof.
  intros title first rest f i item j col n Hi Hj R G.
  destruct (SectionTable_cell title first rest f i item j col Hi Hj)
    as (card & E & _ & _ & C).
  exists card, (renderCell f item col).
  split; [exact E|]. split; [exact C|].
  split; [now rewrite (renderCell_roi_value _ _ _ R)|].
  cbv zeta. rewrite (renderCell_roi_background _ _ _ R), G.
  unfold js_le; cbn [ToNumber].
  repeat split.
  - now intros ->.
  - intros L7 L14. now rewrite (ltb_not_leb _ _ L7), L14.
  - intros L14. now rewrite (gt_14_not_le_7 _ L14), (ltb_not_leb _ _ L14).
  - now intros ->.
  - now intros [->|[->| ->]].
  - now intros [->| ->].
Qed.

(** The first sample record's ROI 7 is red. *)
Lemma C2_roi_background_by_threshold_witness :
  exists card cell,
    SectionTable "Training Recommendations" (Some sampleTraining)
                 (Some (formatCurrency INR)) = Some card /\
    cellAt card 0 3 = Some cell /\
    cell_value cell = VNumber (Number.of_Z 7) /\
    backgroundColor (cell_style cell) = Some red400.
Proof.
  destruct (C2_roi_background_by_threshold
              "Training Recommendations"
              (hd [] sampleTraining) (tl sampleTraining)
              (Some (formatCurrency INR)) 0 (hd [] sampleTraining) 3 "ROI"
              (Number.of_Z 7) eq_refl eq_refl eq_refl eq_refl)
    as (card & cell & E & C & V & B).
  exists card, cell. repeat split; try assumption.
  apply B. reflexivity.
Defined.

(** C10: in a table whose first record has a column named "roi" (in any
    letter case), a row that lacks that key has an undefined cell; both
    comparisons against 7 and 14 are false for it, so the cell gets the
    green background, the same style as a cell holding a number above 14. *)
Theorem C10_missing_roi_rendered_green `{JSHost} :
  forall title first rest f i item j col,
    nth_error (first :: rest) i = Some item ->
    nth_error (Object_keys first) j = Some col ->
    isRoiColumn col = true ->
    hasKey item col = false ->
    exists card cell,
      SectionTable title (Some (first :: rest)) f = Some card /\
      cellAt card i j = Some cell /\
      cell_value cell = VUndefined /\
      js_le VUndefined (Number.of_Z 7) = false /\
      js_le VUndefined (Number.of_Z 14) = false /\
      backgroundColor (cell_style cell) = Some green400 /\
      (forall other n,
          get other col = VNumber n ->
          Number.ltb (Number.of_Z 14) n = true ->
          cell_style (renderCell f other col) = cell_style cell).
Proof.
  intros title first rest f i item j col Hi Hj R M.
  destruct (SectionTable_cell title first rest f i item j col Hi Hj)
    as (card & E & _ & _ & C).
  exists card, (renderCell f item col).
  split; [exact E|]. split; [exact C|].
  split; [apply renderCell_missing;
          [exact M | now apply roi_column_not_inherited]|].
  split; [reflexivity|]. split; [reflexivity|].
  split.
  - now rewrite (renderCell_roi_background _ _ _ R), (get_missing_roi _ _ M R).
  - intros other n G L.
    rewrite (renderCell_roi_style f other col R).
    rewrite (renderCell_roi_style f item col R).
    rewrite G, (get_missing_roi _ _ M R).
    unfold js_le; cbn [ToNumber].
    now rewrite (gt_14_not_le_7 _ L), (ltb_not_leb _ _ L).
Qed.

(** The third sample record has no ROI: its cell is undefined and green. *)
Lemma C10_missing_roi_rendered_green_witness :
  exists card cell,
    SectionTable "Training Recommendations" (Some sampleTraining)
                 (Some (formatCurrency INR)) = Some card /\
    cellAt card 2 3 = Some cell /\
    cell_value cell = VUndefined /\
    backgroundColor (cell_style cell) = Some green400.
Proof.
  destruct (C10_missing_roi_rendered_green
              "Training Recommendations"
              (hd [] sampleTraining) (tl sampleTraining)
              (Some (formatCurrency INR)) 2 (nth 2 sampleTraining []) 3 "ROI"
              eq_refl eq_refl eq_refl eq_refl)
    as (card & cell & E & C & V & _ & _ & B & _).
  exists card, cell. repeat split; assumption.
Defined.

(** ** Columns of a rendered table *)




(** ** Empty and absent collections *)

(** C4: SectionTable returns null for an absent and for an empty collection;
    so each of the six table sections of the dashboard renders nothing when
    its collection (activities_with_metrics, rebalance, hiring.employees,
    training, appraisal, risks) is an empty sequence or absent. *)
Theorem C4_empty_collection_renders_nothing `{JSHost} :
  forall currency data,
    (forall c,
        emptyOrAbsent (collection data c) = true ->
        tableSection currency data c = None /\
        (forall title f, SectionTable title (collection data c) f = None)) /\
    ((forall c, emptyOrAbsent (collection data c) = true) ->
     tablesSection currency data = [None; None; None; None; None; None]).
Proof.
  intros currency data.
  assert (forall c,
             emptyOrAbsent (collection data c) = true ->
             forall title f, SectionTable title (collection data c) f = None) as N.
  { intros c E title f. destruct (collection data c) as [[|item items]|];
      [reflexivity | discriminate E | reflexivity]. }
  assert (forall c,
             emptyOrAbsent (collection data c) = true ->
             tableSection currency data c = None) as T.
  { intros c E. specialize (N c E).
    destruct c; cbn [tableSection collection] in *; apply N. }
  split.
  - intros c E. split; [now apply T | now apply N].
  - intros All. unfold tablesSection. cbn [map].
    now rewrite !T by apply All.
Qed.

(** A document with an empty rebalance sequence and no hiring record. *)
Lemma C4_empty_collection_renders_nothing_witness :
  let data := {| activities_with_metrics := Some sampleTraining;
                 rebalance := Some [];
                 training := Some sampleTraining;
                 appraisal := None;
                 risks := None;
                 hiring := None |} in
  tableSection INR data Rebalance = None /\
  tableSection INR data HiringEmployees = None.
Proof.
  intros data.
  destruct (C4_empty_collection_renders_nothing INR data) as (One & _).
  split.
  - exact (proj1 (One Rebalance eq_refl)).
  - exact (proj1 (One HiringEmployees eq_refl)).
Defined.

(** ** Currency cells *)

(** C1: the code breaks the claim on a zero amount. The first sample
    record's Expected_Gain is the number 0, which is neither empty nor null;
    the formatter itself turns 0 into a currency string in either unit, but
    the table's truthiness test never calls it, and the cell of that
    currency column shows the bare number. *)
Theorem C1_zero_amount_shown_unformatted :
  exists card cell,
    SectionTable "Training Recommendations" (Some sampleTraining)
                 (Some (formatCurrency INR)) = Some card /\
    nth_error (card_headers card) 2 = Some "Expected_Gain" /\
    isCurrencyColumn "Expected_Gain" = true /\
    get (hd [] sampleTraining) "Expected_Gain" = VNumber (S754_zero false) /\
    emptyOrNull (VNumber (S754_zero false)) = false /\
    cellAt card 0 2 = Some cell /\
    cell_value cell = VNumber (S754_zero false) /\
    formatCurrency INR (VNumber (S754_zero false)) = "₹0" /\
    formatCurrency USD (VNumber (S754_zero false)) = "$0" /\
    cell_value cell <> VString (formatCurrency INR (VNumber (S754_zero false))).
Proof.
  do 2 eexists. repeat split. cbn. discriminate.
Qed.

(** ** The displayed magnitude *)











(** ** Rounding to the displayed whole number *)






(** ** Currency conversion *)




(** ** The upload client *)

Lemma ok_spec (res : Response) :
  ok res = true <-> (200 <= status res <= 299)%Z.
Proof.
  unfold ok. rewrite andb_true_iff, !Z.leb_le. reflexivity.
Qed.

(** C8, as stated, fails: no single error is raised for all failures. A
    status of 500 raises the client's fixed error, while a rejected request
    raises the platform's own error unchanged, so the caller can tell the
    two apart. *)
Lemma C8_counterexample_distinct_errors :
  let r := fst (fst sampleFiles) in
  let a := snd (fst sampleFiles) in
  let s := snd sampleFiles in
  let rejected : Network :=
    Throw {| error_name := "TypeError"; error_message := "Failed to fetch" |} in
  uploadFails serverError = true /\
  uploadFails rejected = true /\
  result_of (uploadCSV r a s serverError tt) = Throw (Error "Failed to upload CSVs") /\
  result_of (uploadCSV r a s rejected tt)
  = Throw {| error_name := "TypeError"; error_message := "Failed to fetch" |} /\
  ~ (exists e,
        forall net, uploadFails net = true ->
                    result_of (uploadCSV r a s net tt) = Throw e).
Proof.
  intros r a s rejected. repeat split.
  intros (e & Same).
  pose proof (Same serverError eq_refl) as E1.
  pose proof (Same rejected eq_refl) as E2.
  cbv in E1, E2. congruence.
Qed.

(** C8 (amended): called with three file handles, the upload client issues
    exactly one request, a POST to the fixed backend URL whose multipart body
    has the three parts roster, activities and skill_library in that order;
    it returns the parsed body unchanged when the status is within 200-299
    and the body parses, and throws an error carrying a message in every
    failure case: the one fixed error for any status outside the range, the
    platform's own, passed through unchanged, for a network or a parse
    failure. It changes no state. *)
Theorem C8_uploadCSV_contract :
  forall (S : Type) (rosterFile activitiesFile skillFile : File)
         (net : Network) (st : S),
    let out := uploadCSV rosterFile activitiesFile skillFile net st in
    trace_of out =
      [Fetch "https://crepid-deployable.onrender.com/api/upload-csv" "POST"
             [("roster", rosterFile);
              ("activities", activitiesFile);
              ("skill_library", skillFile)]] /\
    state_of out = st /\
    (forall res body,
        net = Ok res -> (200 <= status res <= 299)%Z -> json res = Ok body ->
        result_of out = Ok body) /\
    (uploadFails net = true -> exists e, result_of out = Throw e) /\
    (forall res,
        net = Ok res -> ~ (200 <= status res <= 299)%Z ->
        result_of out = Throw (Error "Failed to upload CSVs")) /\
    (forall e, net = Throw e -> result_of out = Throw e) /\
    (forall res e,
        net = Ok res -> (200 <= status res <= 299)%Z -> json res = Throw e ->
        result_of out = Throw e).
Proof.
  intros S r a s net st out. subst out.
  unfold uploadCSV, bind, fetch, throw, res_json, trace_of, state_of, result_of.
  destruct net as [res|e]; cbn [fst snd].
  - destruct (ok res) eqn:O; cbn [negb fst snd app].
    + split; [reflexivity|]. split; [reflexivity|].
      split; [now intros res' body [= <-] _ J|].
      split; [|split; [|split]].
      * cbn [uploadFails]. rewrite O. cbn [negb orb].
        destruct (json res) as [b|e]; [discriminate|].
        intros _. now exists e.
      * intros res' [= <-] N. exfalso. apply N. now apply ok_spec.
      * discriminate.
      * now intros res' e [= <-] _ J.
    + assert (~ (200 <= status res <= 299)%Z) as N.
      { intros R. apply ok_spec in R. congruence. }
      split; [reflexivity|]. split; [reflexivity|].
      split; [intros res' body [= <-] R; now destruct N|].
      split; [intros _; now eexists|].
      split; [reflexivity|].
      split; [discriminate|].
      intros res' e [= <-] R. now destruct N.
  - split; [reflexivity|]. split; [reflexivity|].
    split; [discriminate|].
    split; [intros _; now exists e|].
    split; [discriminate|].
    split; [now intros e' [= <-]|discriminate].
Qed.

(** A 500 answer: one request, the fixed error. *)
Lemma C8_uploadCSV_contract_witness :
  let r := {| file_name := "roster.csv" |} in
  let a := {| file_name := "activities.csv" |} in
  let s := {| file_name := "skills.csv" |} in
  let res := {| status := 500; json := Throw (Error "Unexpected token") |} in
  result_of (uploadCSV r a s (Ok res) tt) = Throw (Error "Failed to upload CSVs").
Proof.
  intros r a s res.
  destruct (C8_uploadCSV_contract unit r a s (Ok res) tt)
    as (_ & _ & _ & _ & F & _).
  apply (F res eq_refl). cbn. lia.
Defined.

(** ** The upload handlers *)

Ltac run_handler :=
  unfold CrepidDashboard.handleUpload, CSVUploader.handleUpload, uploadCSV,
    tryCatch, tryFinally, bind, get_state, fetch, throw, res_json, alert,
    perform, modify, trace_of, state_of, result_of;
  cbn [fst snd app negb].

(** The dashboard's handler with all three files selected, by the network's
    answer. *)
Lemma dashboard_run (net : Network) (st : CrepidDashboard.State) r a s :
  CrepidDashboard.rosterFile st = Some r ->
  CrepidDashboard.activitiesFile st = Some a ->
  CrepidDashboard.skillsFile st = Some s ->
  let request := Fetch backendUrl "POST"
                       [("roster", r); ("activities", a); ("skills", s)] in
  let failed err :=
    ([request; ConsoleError (Some "Upload failed:") err;
      Alert "Upload failed! Check console for details."],
     CrepidDashboard.setLoading false (CrepidDashboard.setLoading true st),
     Ok tt) in
  CrepidDashboard.handleUpload net st =
  match net with
  | Throw e => failed e
  | Ok res =>
      if ok res then
        match json res with
        | Ok body =>
            ([request],
             CrepidDashboard.setLoading false
               (CrepidDashboard.setData body (CrepidDashboard.setLoading true st)),
             Ok tt)
        | Throw e => failed e
        end
      else failed (Error ("Server responded with status "
                          ++ string_of_Z (status res)))
  end.
Proof.
  intros Hr Ha Hs. run_handler. rewrite Hr, Ha, Hs. cbn [fst snd app].
  destruct net as [res|e]; [|reflexivity].
  destruct (ok res); cbn [negb]; [|reflexivity].
  destruct (json res); reflexivity.
Qed.

(** The uploader form's handler with all three files selected. *)
Lemma uploader_run (net : Network) (st : CSVUploader.State) ev r a s :
  CSVUploader.roster ev = Some r ->
  CSVUploader.activities ev = Some a ->
  CSVUploader.skill_library ev = Some s ->
  let request := Fetch backendUrl "POST"
                       [("roster", r); ("activities", a); ("skill_library", s)] in
  let failed err :=
    ([PreventDefault; request; ConsoleError None err;
      Alert "Error uploading files"],
     CSVUploader.setLoading false (CSVUploader.setLoading true st),
     Ok tt) in
  CSVUploader.handleUpload ev net st =
  match net with
  | Throw e => failed e
  | Ok res =>
      if ok res then
        match json res with
        | Ok body =>
            ([PreventDefault; request;
              Alert "CSV files uploaded and processed successfully!"],
             CSVUploader.setLoading false
               (CSVUploader.setDashboardData body
                  (CSVUploader.setLoading true st)),
             Ok tt)
        | Throw e => failed e
        end
      else failed (Error "Failed to upload CSVs")
  end.
Proof.
  intros Hr Ha Hs. run_handler. rewrite Hr, Ha, Hs. cbn [fst snd app].
  destruct net as [res|e]; [|reflexivity].
  destruct (ok res); cbn [negb]; [|reflexivity].
  destruct (json res); reflexivity.
Qed.

(** With a file missing the dashboard's handler only alerts. *)
Lemma dashboard_missing (net : Network) (st : CrepidDashboard.State) :
  CrepidDashboard.rosterFile st = None \/
  CrepidDashboard.activitiesFile st = None \/
  CrepidDashboard.skillsFile st = None ->
  CrepidDashboard.handleUpload net st
  = ([Alert "Please select all three files!"], st, Ok tt).
Proof.
  run_handler.
  destruct (CrepidDashboard.rosterFile st), (CrepidDashboard.activitiesFile st),
    (CrepidDashboard.skillsFile st); intros [E|[E|E]];
    try discriminate E; reflexivity.
Qed.

Lemma uploader_missing (net : Network) (st : CSVUploader.State) ev :
  CSVUploader.roster ev = None \/
  CSVUploader.activities ev = None \/
  CSVUploader.skill_library ev = None ->
  CSVUploader.handleUpload ev net st
  = ([PreventDefault; Alert "All files required!"], st, Ok tt).
Proof.
  run_handler.
  destruct (CSVUploader.roster ev), (CSVUploader.activities ev),
    (CSVUploader.skill_library ev); intros [E|[E|E]];
    try discriminate E; reflexivity.
Qed.



(** C7: when at least one of the three files is not selected, each upload
    handler shows its blocking notice and does nothing else: no request is
    issued and the state (loading flag, stored result, selected files) is
    unchanged; a run that issues a request had all three files selected. *)
Theorem C7_missing_file_blocks_upload :
  forall net : Network,
    (forall st,
        CrepidDashboard.rosterFile st = None \/
        CrepidDashboard.activitiesFile st = None \/
        CrepidDashboard.skillsFile st = None ->
        let out := CrepidDashboard.handleUpload net st in
        trace_of out = [Alert "Please select all three files!"] /\
        state_of out = st /\
        (forall url method body, ~ In (Fetch url method body) (trace_of out))) /\
    (forall st ev,
        CSVUploader.roster ev = None \/
        CSVUploader.activities ev = None \/
        CSVUploader.skill_library ev = None ->
        let out := CSVUploader.handleUpload ev net st in
        trace_of out = [PreventDefault; Alert "All files required!"] /\
        state_of out = st /\
        (forall url method body, ~ In (Fetch url method body) (trace_of out))) /\
    (forall st url method body,
        In (Fetch url method body)
           (trace_of (CrepidDashboard.handleUpload net st)) ->
        exists r a s,
          CrepidDashboard.rosterFile st = Some r /\
          CrepidDashboard.activitiesFile st = Some a /\
          CrepidDashboard.skillsFile st = Some s) /\
    (forall st ev url method body,
        In (Fetch url method body)
           (trace_of (CSVUploader.handleUpload ev net st)) ->
        exists r a s,
          CSVUploader.roster ev = Some r /\
          CSVUploader.activities ev = Some a /\
          CSVUploader.skill_library ev = Some s).
Proof.
  intros net.
  assert (forall tr : list Effect,
             tr = [Alert "Please select all three files!"] \/
             tr = [PreventDefault; Alert "All files required!"] ->
             forall url method body, ~ In (Fetch url method body) tr) as NoFetch.
  { intros tr [-> | ->] url method body I; cbn in I;
      intuition discriminate. }
  split; [|split; [|split]].
  - intros st M out. subst out. rewrite (dashboard_missing net st M).
    unfold trace_of, state_of; cbn [fst snd].
    split; [reflexivity|]. split; [reflexivity|]. apply NoFetch. now left.
  - intros st ev M out. subst out. rewrite (uploader_missing net st ev M).
    unfold trace_of, state_of; cbn [fst snd].
    split; [reflexivity|]. split; [reflexivity|]. apply NoFetch. now right.
  - intros st url method body I.
    destruct (CrepidDashboard.rosterFile st) as [r|] eqn:Hr;
      [|rewrite dashboard_missing in I by auto; exfalso; revert I;
        apply NoFetch; now left].
    destruct (CrepidDashboard.activitiesFile st) as [a|] eqn:Ha;
      [|rewrite dashboard_missing in I by auto; exfalso; revert I;
        apply NoFetch; now left].
    destruct (CrepidDashboard.skillsFile st) as [s|] eqn:Hs;
      [|rewrite dashboard_missing in I by auto; exfalso; revert I;
        apply NoFetch; now left].
    now exists r, a, s.
  - intros st ev url method body I.
    destruct (CSVUploader.roster ev) as [r|] eqn:Hr;
      [|rewrite uploader_missing in I by auto; exfalso; revert I;
        apply NoFetch; now right].
    destruct (CSVUploader.activities ev) as [a|] eqn:Ha;
      [|rewrite uploader_missing in I by auto; exfalso; revert I;
        apply NoFetch; now right].
    destruct (CSVUploader.skill_library ev) as [s|] eqn:Hs;
      [|rewrite uploader_missing in I by auto; exfalso; revert I;
        apply NoFetch; now right].
    now exists r, a, s.
Qed.

(** Only two of the three files selected. *)
Lemma C7_missing_file_blocks_upload_witness :
  let st := {| CrepidDashboard.rosterFile := Some (fst (fst sampleFiles));
               CrepidDashboard.activitiesFile := Some (snd (fst sampleFiles));
               CrepidDashboard.skillsFile := None;
               CrepidDashboard.loading := false;
               CrepidDashboard.data := Some sampleResult;
               CrepidDashboard.currency := USD |} in
  let out := CrepidDashboard.handleUpload serverError st in
  trace_of out = [Alert "Please select all three files!"] /\
  state_of out = st.
Proof.
  intros st out.
  destruct (C7_missing_file_blocks_upload serverError) as (D & _).
  destruct (D st (or_intror (or_intror eq_refl))) as (T & S & _).
  now split.
Defined.

(** ** The FAQ accordion *)

Lemma FAQ_render_expanded_iff (openIndex : FAQSection.State) (faqs : list FAQSection.FAQ)
      (start : nat) (c : FAQSection.FAQCard) :
  In c (FAQSection.renderFrom openIndex start faqs) ->
  (FAQSection.expanded c = true <-> openIndex = Some (FAQSection.card_index c)).
Proof.
  revert start. induction faqs as [|faq rest IH]; intros start; cbn; [tauto|].
  intros [<- | I]; [|now apply (IH (S start))].
  unfold FAQSection.expanded, FAQSection.renderItem, FAQSection.isOpen; cbn.
  destruct openIndex as [i|]; [|split; discriminate].
  destruct (Nat.eqb_spec i start) as [->|N]; split; try reflexivity;
    try discriminate.
  intros [= E]. contradiction.
Qed.

Lemma FAQ_render_indices (openIndex : FAQSection.State) (faqs : list FAQSection.FAQ)
      (start : nat) :
  map FAQSection.card_index (FAQSection.renderFrom openIndex start faqs)
  = seq start (List.length faqs).
Proof.
  revert start. induction faqs as [|faq rest IH]; intros start; cbn;
    [reflexivity | now rewrite IH].
Qed.

(** From index [start] on, at most one item is expanded; none when the open
    index lies before. *)
Lemma FAQ_expanded_count (openIndex : FAQSection.State) (faqs : list FAQSection.FAQ)
      (start : nat) :
  List.length (filter FAQSection.expanded (FAQSection.renderFrom openIndex start faqs)) <= 1 /\
  (FAQSection.isOpen openIndex start = false ->
   (forall i, openIndex = Some i -> i < start) ->
   filter FAQSection.expanded (FAQSection.renderFrom openIndex start faqs) = []).
Proof.
  assert (forall fs st,
             (forall i, openIndex = Some i -> i < st) ->
             filter FAQSection.expanded (FAQSection.renderFrom openIndex st fs) = [])
    as Before.
  { induction fs as [|faq rest IH]; intros st B; cbn; [reflexivity|].
    unfold FAQSection.expanded at 1; cbn.
    destruct (FAQSection.isOpen openIndex st) eqn:O.
    - unfold FAQSection.isOpen in O. destruct openIndex as [i|]; [|discriminate].
      apply Nat.eqb_eq in O. specialize (B i eq_refl). lia.
    - apply IH. intros i E. specialize (B i E). lia. }
  split; [|intros _ B; now apply Before].
  revert start. induction faqs as [|faq rest IH]; intros start; cbn; [lia|].
  unfold FAQSection.expanded at 1; cbn.
  destruct (FAQSection.isOpen openIndex start) eqn:O; [|apply IH].
  rewrite Before; [cbn; lia|].
  unfold FAQSection.isOpen in O. destruct openIndex as [i|]; [|discriminate].
  apply Nat.eqb_eq in O. intros i' [= <-]. lia.
Qed.

(** C9: the accordion's state is one nullable open index, null at first (no
    item expanded); an item shows its answer exactly when its index is the
    open one, so at most one item is expanded in any state; clicking the open
    item's header collapses it, and clicking another header makes that item
    the only open one. *)
Theorem C9_at_most_one_faq_expanded :
  FAQSection.initial = None /\
  (forall faqs,
      filter FAQSection.expanded (FAQSection.render FAQSection.initial faqs) = []) /\
  (forall openIndex faqs,
      List.length (filter FAQSection.expanded (FAQSection.render openIndex faqs)) <= 1) /\
  (forall openIndex faqs c,
      In c (FAQSection.render openIndex faqs) ->
      (FAQSection.expanded c = true <-> openIndex = Some (FAQSection.card_index c))) /\
  (forall clicks faqs,
      List.length (filter FAQSection.expanded
                          (FAQSection.render (FAQSection.afterClicks clicks) faqs)) <= 1) /\
  (forall openIndex faqs,
      map FAQSection.card_index (FAQSection.render openIndex faqs)
      = seq 0 (List.length faqs)) /\
  (forall index, FAQSection.toggleFAQ (Some index) index = None) /\
  (forall openIndex index,
      openIndex <> Some index ->
      FAQSection.toggleFAQ openIndex index = Some index /\
      forall other,
        other <> index ->
        FAQSection.isOpen (FAQSection.toggleFAQ openIndex index) other = false).
Proof.
  split; [reflexivity|].
  split.
  { intros faqs. apply (FAQ_expanded_count None faqs 0); [reflexivity|discriminate]. }
  split; [intros openIndex faqs; apply FAQ_expanded_count|].
  split; [intros openIndex faqs c; apply FAQ_render_expanded_iff|].
  split; [intros clicks faqs; apply FAQ_expanded_count|].
  split; [intros openIndex faqs; apply FAQ_render_indices|].
  split.
  { intros index. unfold FAQSection.toggleFAQ, FAQSection.isOpen.
    now rewrite Nat.eqb_refl. }
  intros openIndex index N.
  assert (FAQSection.toggleFAQ openIndex index = Some index) as T.
  { unfold FAQSection.toggleFAQ, FAQSection.isOpen.
    destruct openIndex as [i|]; [|reflexivity].
    destruct (Nat.eqb_spec i index) as [->|]; [contradiction | reflexivity]. }
  split; [exact T|].
  intros other O. rewrite T. cbn.
  apply Nat.eqb_neq. congruence.
Qed.

(** Item 1 open; clicking header 3 leaves item 3 the only open one. *)
Lemma C9_at_most_one_faq_expanded_witness :
  FAQSection.toggleFAQ (Some 1) 3 = Some 3 /\
  FAQSection.isOpen (FAQSection.toggleFAQ (Some 1) 3) 1 = false.
Proof.
  destruct C9_at_most_one_faq_expanded as (_ & _ & _ & _ & _ & _ & _ & T).
  destruct (T (Some 1) 3) as (E & O); [discriminate|].
  split; [exact E|]. apply O. discriminate.
Defined.

(** * Further properties of the code *)

(** ** Upload handlers and clients *)

(** X1: with the three files selected and a successful answer, the
    dashboard's handler issues the one request, stores the parsed body as the
    new data, ends with loading false, shows no alert, and keeps the selected
    files and the currency. *)
Theorem X1_dashboard_upload_success :
  forall net st r a s body,
    CrepidDashboard.rosterFile st = Some r ->
    CrepidDashboard.activitiesFile st = Some a ->
    CrepidDashboard.skillsFile st = Some s ->
    succeedsWith net body ->
    let out := CrepidDashboard.handleUpload net st in
    trace_of out
    = [Fetch backendUrl "POST" [("roster", r); ("activities", a); ("skills", s)]] /\
    CrepidDashboard.data (state_of out) = Some body /\
    CrepidDashboard.loading (state_of out) = false /\
    CrepidDashboard.rosterFile (state_of out) = Some r /\
    CrepidDashboard.activitiesFile (state_of out) = Some a /\
    CrepidDashboard.skillsFile (state_of out) = Some s /\
    CrepidDashboard.currency (state_of out) = CrepidDashboard.currency st /\
    result_of out = Ok tt.
Proof.
  intros net st r a s body Hr Ha Hs (res & -> & O & J) out. subst out.
  rewrite (dashboard_run _ st r a s Hr Ha Hs), O, J.
  unfold trace_of, state_of, result_of; cbn.
  repeat split; assumption.
Qed.

Lemma X1_dashboard_upload_success_witness :
  let net := Ok {| status := 200; json := Ok sampleResult |} in
  CrepidDashboard.data
    (state_of (CrepidDashboard.handleUpload net populatedDashboard))
  = Some sampleResult /\
  CrepidDashboard.loading
    (state_of (CrepidDashboard.handleUpload net populatedDashboard)) = false.
Proof.
  intros net.
  destruct (X1_dashboard_upload_success net populatedDashboard _ _ _ sampleResult
              eq_refl eq_refl eq_refl)
    as (_ & D & L & _).
  - now exists {| status := 200; json := Ok sampleResult |}.
  - now split.
Defined.

Ltac x2_finish :=
  cbn; repeat split; auto;
  try match goal with
      | H : _ \/ _ \/ _ |- _ => destruct H as [H | [H | H]]; discriminate H
      | H : exists _, _ |- _ =>
          destruct H as (? & ? & ? & ? & ? & ?); congruence
      end.

(** X2: whatever the network answers and whatever is selected, neither
    upload handler throws, neither issues more than one request or shows
    more than one alert; with all three files selected a handler issues
    exactly one request and ends with loading false, also when loading was
    true before; with a file missing it issues none and leaves the state
    untouched. The dashboard's handler never changes the selected files or
    the currency. *)
Theorem X2_handlers_never_throw_single_request :
  forall net : Network,
    (forall st,
        let out := CrepidDashboard.handleUpload net st in
        result_of out = Ok tt /\
        List.length (filter isFetch (trace_of out)) <= 1 /\
        List.length (filter isAlert (trace_of out)) <= 1 /\
        (CrepidDashboard.loading (state_of out) = false \/ state_of out = st) /\
        CrepidDashboard.rosterFile (state_of out) = CrepidDashboard.rosterFile st /\
        CrepidDashboard.activitiesFile (state_of out)
        = CrepidDashboard.activitiesFile st /\
        CrepidDashboard.skillsFile (state_of out) = CrepidDashboard.skillsFile st /\
        CrepidDashboard.currency (state_of out) = CrepidDashboard.currency st /\
        ((exists r a s,
             CrepidDashboard.rosterFile st = Some r /\
             CrepidDashboard.activitiesFile st = Some a /\
             CrepidDashboard.skillsFile st = Some s) ->
         CrepidDashboard.loading (state_of out) = false /\
         List.length (filter isFetch (trace_of out)) = 1) /\
        (CrepidDashboard.rosterFile st = None \/
         CrepidDashboard.activitiesFile st = None \/
         CrepidDashboard.skillsFile st = None ->
         state_of out = st /\
         filter isFetch (trace_of out) = [] /\
         List.length (filter isAlert (trace_of out)) = 1)) /\
    (forall st ev,
        let out := CSVUploader.handleUpload ev net st in
        result_of out = Ok tt /\
        List.length (filter isFetch (trace_of out)) <= 1 /\
        List.length (filter isAlert (trace_of out)) <= 1 /\
        (CSVUploader.loading (state_of out) = false \/ state_of out = st) /\
        ((exists r a s,
             CSVUploader.roster ev = Some r /\
             CSVUploader.activities ev = Some a /\
             CSVUploader.skill_library ev = Some s) ->
         CSVUploader.loading (state_of out) = false /\
         List.length (filter isFetch (trace_of out)) = 1 /\
         List.length (filter isAlert (trace_of out)) = 1) /\
        (CSVUploader.roster ev = None \/
         CSVUploader.activities ev = None \/
         CSVUploader.skill_library ev = None ->
         state_of out = st /\
         filter isFetch (trace_of out) = [] /\
         List.length (filter isAlert (trace_of out)) = 1)).
Proof.
  intros net. split.
  - intros st out. subst out.
    destruct (CrepidDashboard.rosterFile st) as [r|] eqn:Hr;
      [|rewrite dashboard_missing by auto; x2_finish].
    destruct (CrepidDashboard.activitiesFile st) as [a|] eqn:Ha;
      [|rewrite dashboard_missing by auto; x2_finish].
    destruct (CrepidDashboard.skillsFile st) as [s|] eqn:Hs;
      [|rewrite dashboard_missing by auto; x2_finish].
    rewrite (dashboard_run net st r a s Hr Ha Hs).
    destruct net as [res|e]; [destruct (ok res); [destruct (json res)|]|];
      x2_finish.
  - intros st ev out. subst out.
    destruct (CSVUploader.roster ev) as [r|] eqn:Hr;
      [|rewrite uploader_missing by auto; x2_finish].
    destruct (CSVUploader.activities ev) as [a|] eqn:Ha;
      [|rewrite uploader_missing by auto; x2_finish].
    destruct (CSVUploader.skill_library ev) as [s|] eqn:Hs;
      [|rewrite uploader_missing by auto; x2_finish].
    rewrite (uploader_run net st ev r a s Hr Ha Hs).
    destruct net as [res|e]; [destruct (ok res); [destruct (json res)|]|];
      x2_finish.
Qed.

(** A click while the loading flag is still set and all files are selected:
    one request, and the flag is cleared. *)
Lemma X2_handlers_never_throw_single_request_witness :
  let st := CrepidDashboard.setLoading true populatedDashboard in
  let out := CrepidDashboard.handleUpload serverError st in
  CrepidDashboard.loading st = true /\
  CrepidDashboard.loading (state_of out) = false /\
  List.length (filter isFetch (trace_of out)) = 1.
Proof.
  intros st out.
  destruct (X2_handlers_never_throw_single_request serverError) as (D & _).
  destruct (D st) as (_ & _ & _ & _ & _ & _ & _ & _ & Sel & _).
  split; [reflexivity|]. apply Sel.
  do 3 eexists. repeat split.
Defined.

(** X3: with the three files present and a successful answer, the uploader
    form's handler stores the parsed body in the shared context, ends with
    loading false and confirms with its success alert, after its one
    request. *)
Theorem X3_uploader_upload_success :
  forall net st ev r a s body,
    CSVUploader.roster ev = Some r ->
    CSVUploader.activities ev = Some a ->
    CSVUploader.skill_library ev = Some s ->
    succeedsWith net body ->
    let out := CSVUploader.handleUpload ev net st in
    trace_of out
    = [PreventDefault;
       Fetch backendUrl "POST"
             [("roster", r); ("activities", a); ("skill_library", s)];
       Alert "CSV files uploaded and processed successfully!"] /\
    CSVUploader.dashboardData (state_of out) = Some body /\
    CSVUploader.loading (state_of out) = false /\
    result_of out = Ok tt.
Proof.
  intros net st ev r a s body Hr Ha Hs (res & -> & O & J) out. subst out.
  rewrite (uploader_run _ st ev r a s Hr Ha Hs), O, J.
  unfold trace_of, state_of, result_of; cbn.
  repeat split.
Qed.

Lemma X3_uploader_upload_success_witness :
  let net := Ok {| status := 201; json := Ok sampleResult |} in
  CSVUploader.dashboardData
    (state_of (CSVUploader.handleUpload fullSubmit net CSVUploader.initial))
  = Some sampleResult.
Proof.
  intros net.
  destruct (X3_uploader_upload_success net CSVUploader.initial fullSubmit _ _ _
              sampleResult eq_refl eq_refl eq_refl)
    as (_ & D & _).
  - now exists {| status := 201; json := Ok sampleResult |}.
  - exact D.
Defined.

(** X4: for the same three files the dashboard's own request and the upload
    client's go to the same URL with the same method and carry the same files
    in the same order; they differ in the name of the third part, "skills"
    in the dashboard and "skill_library" in the client. The local client
    sends the client's body to the local URL and returns the same result. *)
Theorem X4_request_shapes :
  forall net st r a s,
    CrepidDashboard.rosterFile st = Some r ->
    CrepidDashboard.activitiesFile st = Some a ->
    CrepidDashboard.skillsFile st = Some s ->
    exists viewBody clientBody,
      filter isFetch (trace_of (CrepidDashboard.handleUpload net st))
      = [Fetch backendUrl "POST" viewBody] /\
      (forall (S : Type) (st' : S),
          trace_of (uploadCSV r a s net st') = [Fetch backendUrl "POST" clientBody] /\
          trace_of (ApiLocal.uploadCSV r a s net st')
          = [Fetch "http://localhost:8000/api/upload-csv" "POST" clientBody] /\
          result_of (ApiLocal.uploadCSV r a s net st')
          = result_of (uploadCSV r a s net st') /\
          state_of (ApiLocal.uploadCSV r a s net st') = st') /\
      map snd viewBody = [r; a; s] /\
      map snd clientBody = [r; a; s] /\
      map fst viewBody = ["roster"; "activities"; "skills"] /\
      map fst clientBody = ["roster"; "activities"; "skill_library"].
Proof.
  intros net st r a s Hr Ha Hs.
  exists [("roster", r); ("activities", a); ("skills", s)],
         [("roster", r); ("activities", a); ("skill_library", s)].
  split.
  - rewrite (dashboard_run net st r a s Hr Ha Hs).
    destruct net as [res|e]; [destruct (ok res); [destruct (json res)|]|];
      reflexivity.
  - split; [|repeat split].
    intros S st'.
    unfold uploadCSV, ApiLocal.uploadCSV, bind, fetch, throw, res_json,
      trace_of, state_of, result_of.
    destruct net as [res|e]; cbn [fst snd];
      [destruct (ok res); cbn [negb fst snd app]|]; repeat split.
Qed.

Lemma X4_request_shapes_witness :
  exists viewBody,
    filter isFetch (trace_of (CrepidDashboard.handleUpload serverError populatedDashboard))
    = [Fetch backendUrl "POST" viewBody] /\
    map fst viewBody = ["roster"; "activities"; "skills"].
Proof.
  destruct (X4_request_shapes serverError populatedDashboard _ _ _
              eq_refl eq_refl eq_refl)
    as (viewBody & clientBody & F & _ & _ & _ & N & _).
  now exists viewBody.
Defined.

(** X5: the logging client issues the same single request as the upload
    client and returns the same body when that one returns; when that one
    throws it logs exactly one console error, labelled "Upload error:", and
    rethrows the logged error. For a status outside 200-299 the error's
    message is "Failed to upload CSVs: " followed by the response text, or
    the text's own failure if the text cannot be read; a network or parse
    failure is rethrown unchanged. It changes no state. *)
Theorem X5_logging_client :
  forall (S : Type) (text : Result string) (r a s : File) (net : Network) (st : S),
    let plain := uploadCSV r a s net st in
    let out := ApiLogged.uploadCSV text r a s net st in
    state_of out = st /\
    filter isFetch (trace_of out) = trace_of plain /\
    (forall body, result_of plain = Ok body ->
                  result_of out = Ok body /\ trace_of out = trace_of plain) /\
    (forall e, result_of plain = Throw e ->
               exists e',
                 result_of out = Throw e' /\
                 trace_of out
                 = (trace_of plain ++ [ConsoleError (Some "Upload error:") e'])%list /\
                 (uploadFails net = true /\
                  ((exists res, net = Ok res /\ ok res = false) ->
                   e' = match text with
                        | Ok t => Error ("Failed to upload CSVs: " ++ t)
                        | Throw te => te
                        end) /\
                  ((forall res, net = Ok res -> ok res = true) -> e' = e))).
Proof.
  intros S text r a s net st plain out. subst plain out.
  unfold ApiLogged.uploadCSV, ApiLogged.res_text, uploadCSV, tryCatch, bind,
    fetch, throw, res_json, perform, ret, trace_of, state_of, result_of.
  destruct net as [res|e]; cbn [fst snd].
  - destruct (ok res) eqn:O; cbn [negb fst snd app].
    + destruct (json res) as [b|e] eqn:J; cbn [fst snd app filter isFetch].
      * split; [reflexivity|]. split; [reflexivity|].
        split; [now intros body [= <-]|discriminate].
      * split; [reflexivity|]. split; [reflexivity|].
        split; [discriminate|].
        intros e0 [= <-]. exists e. split; [reflexivity|].
        split; [reflexivity|]. cbn [uploadFails]. rewrite O, J.
        split; [reflexivity|]. split; [|reflexivity].
        intros (res' & [= <-] & O'). congruence.
    + destruct text as [t|te]; cbn [fst snd app filter isFetch].
      * split; [reflexivity|]. split; [reflexivity|].
        split; [discriminate|].
        intros e0 [= <-]. eexists. split; [reflexivity|].
        split; [reflexivity|]. cbn [uploadFails]. rewrite O.
        split; [reflexivity|]. split; [reflexivity|].
        intros A. specialize (A res eq_refl). congruence.
      * split; [reflexivity|]. split; [reflexivity|].
        split; [discriminate|].
        intros e0 [= <-]. exists te. split; [reflexivity|].
        split; [reflexivity|]. cbn [uploadFails]. rewrite O.
        split; [reflexivity|]. split; [reflexivity|].
        intros A. specialize (A res eq_refl). congruence.
  - cbn [fst snd app filter isFetch].
    split; [reflexivity|]. split; [reflexivity|].
    split; [discriminate|].
    intros e0 [= <-]. exists e. split; [reflexivity|].
    split; [reflexivity|]. split; [reflexivity|]. split; [|reflexivity].
    intros (res' & D & _). discriminate D.
Qed.

Lemma X5_logging_client_witness :
  let r := fst (fst sampleFiles) in
  let a := snd (fst sampleFiles) in
  let s := snd sampleFiles in
  result_of (ApiLogged.uploadCSV (Ok "Internal Server Error") r a s serverError tt)
  = Throw (Error "Failed to upload CSVs: Internal Server Error").
Proof.
  intros r a s.
  destruct (X5_logging_client unit (Ok "Internal Server Error") r a s serverError tt)
    as (_ & _ & _ & T).
  destruct (T (Error "Failed to upload CSVs") eq_refl)
    as (e' & R & _ & _ & M & _).
  rewrite R. f_equal. apply M.
  eexists. split; reflexivity.
Defined.

(** X6: the uploader form's handler behaves the same over any client that
    leaves the component state alone: it never throws and ends with loading
    false; if the client returns a body, that body becomes the shared data
    and the success alert follows the client's effects; if the client
    throws, the shared data is kept, the error is logged and the failure
    alert shown. Over the upload client it is the uploader form's handler. *)
Theorem X6_uploader_over_any_client :
  forall (client : File -> File -> File -> M CSVUploader.State DashboardResult)
         ev net st r a s,
    CSVUploader.roster ev = Some r ->
    CSVUploader.activities ev = Some a ->
    CSVUploader.skill_library ev = Some s ->
    (forall st0, state_of (client r a s net st0) = st0) ->
    let called := client r a s net (CSVUploader.setLoading true st) in
    let out := CSVUploaderWith.handleUpload client ev net st in
    result_of out = Ok tt /\
    CSVUploader.loading (state_of out) = false /\
    match result_of called with
    | Ok body =>
        CSVUploader.dashboardData (state_of out) = Some body /\
        trace_of out
        = (PreventDefault :: trace_of called
             ++ [Alert "CSV files uploaded and processed successfully!"])%list
    | Throw e =>
        CSVUploader.dashboardData (state_of out) = CSVUploader.dashboardData st /\
        trace_of out
        = (PreventDefault :: trace_of called
             ++ [ConsoleError None e; Alert "Error uploading files"])%list
    end /\
    CSVUploaderWith.handleUpload uploadCSV = CSVUploader.handleUpload.
Proof.
  intros client ev net st r a s Hr Ha Hs Pure called out. subst called out.
  specialize (Pure (CSVUploader.setLoading true st)).
  unfold CSVUploaderWith.handleUpload, tryCatch, tryFinally, bind, alert,
    perform, modify, trace_of, state_of, result_of in *.
  rewrite Hr, Ha, Hs. cbn [fst snd app].
  destruct (client r a s net (CSVUploader.setLoading true st))
    as [[tr st1] [body|e]]; cbn [fst snd app] in *; subst st1;
    repeat split; cbn; try reflexivity;
    now rewrite ?app_nil_r, <- ?app_assoc.
Qed.

Lemma X6_uploader_over_any_client_witness :
  let client := ApiLogged.uploadCSV (Ok "Internal Server Error") in
  let out := CSVUploaderWith.handleUpload client fullSubmit serverError
                                          populatedUploader in
  result_of out = Ok tt /\
  CSVUploader.loading (state_of out) = false /\
  CSVUploader.dashboardData (state_of out) = Some sampleResult.
Proof.
  intros client out.
  destruct (X6_uploader_over_any_client client fullSubmit serverError
              populatedUploader _ _ _ eq_refl eq_refl eq_refl)
    as (R & L & D & _).
  - intros st0. reflexivity.
  - split; [exact R|]. split; [exact L|]. exact (proj1 D).
Defined.

(** ** Summary cards, the toggle and the tables *)

Section ViewFacts.
Context `{JSHost}.

Lemma rowsShown_SectionTable title items f :
  rowsShown (SectionTable title items f) = DashboardView.lengthOrZero items.
Proof.
  destruct items as [[|first rest]|]; cbn; try reflexivity.
  now rewrite length_map.
Qed.

Lemma SectionTable_none_iff title items f :
  SectionTable title items f = None <-> emptyOrAbsent items = true.
Proof.
  destruct items as [[|first rest]|]; cbn; split; try reflexivity;
    discriminate.
Qed.

(** The inline style of a cell does not depend on the formatter. *)
Lemma renderCell_style_formatter f g item col :
  cell_style (renderCell f item col) = cell_style (renderCell g item col).
Proof.
  destruct (isRoiColumn col) eqn:R.
  - now rewrite !(renderCell_roi_style _ _ _ R).
  - unfold renderCell; cbn [cell_style]. now rewrite R.
Qed.

(** Outside the currency columns a cell shows the record's value. *)
Lemma renderCell_plain_value f item col :
  isCurrencyColumn col = false -> cell_value (renderCell f item col) = get item col.
Proof.
  intros C. unfold renderCell; cbn [cell_value]. rewrite C. now destruct f.
Qed.

(** Every cell of a table is [renderCell] on its record and header. *)
Lemma cellAt_SectionTable title items f card i j cell :
  SectionTable title items f = Some card ->
  cellAt card i j = Some cell ->
  exists first rest item col,
    items = Some (first :: rest) /\
    nth_error (first :: rest) i = Some item /\
    nth_error (Object_keys first) j = Some col /\
    cell = renderCell f item col.
Proof.
  destruct items as [[|first rest]|]; cbn [SectionTable]; try discriminate.
  intros [= <-]. unfold cellAt; cbn [card_rows].
  change (map (renderCell f first) (Object_keys first)
          :: map (fun item => map (renderCell f item) (Object_keys first)) rest)
    with (map (fun item => map (renderCell f item) (Object_keys first))
              (first :: rest)).
  rewrite nth_error_map.
  destruct (nth_error (first :: rest) i) as [item|] eqn:Hi;
    cbn [option_map]; [|discriminate].
  rewrite nth_error_map.
  destruct (nth_error (Object_keys first) j) as [col|] eqn:Hj;
    cbn [option_map]; [|discriminate].
  intros [= <-]. now exists first, rest, item, col.
Qed.

End ViewFacts.

(** X7: each of the three count cards shows the number of rows of the
    table section of the same collection, zero exactly when that section
    renders nothing; the New Hires card passes hiring.NewHires through when
    it is truthy and shows 0 otherwise, also when there is no hiring record,
    whatever the employees table holds. All four cards use the colour
    "primary". *)
Theorem X7_summary_cards_match_tables `{JSHost} :
  forall cur d,
    exists metrics rebal train hires,
      DashboardView.summaryCards d = [metrics; rebal; train; hires] /\
      DashboardView.dc_value metrics
      = DashboardView.Count (rowsShown (tableSection cur d ActivitiesWithMetrics)) /\
      DashboardView.dc_value rebal
      = DashboardView.Count (rowsShown (tableSection cur d Rebalance)) /\
      DashboardView.dc_value train
      = DashboardView.Count (rowsShown (tableSection cur d Training)) /\
      (forall c, rowsShown (tableSection cur d c) = 0 <-> tableSection cur d c = None) /\
      (hiring d = None ->
       DashboardView.dc_value hires = DashboardView.Passed (VNumber (S754_zero false))) /\
      (forall h, hiring d = Some h ->
                 DashboardView.dc_value hires
                 = DashboardView.Passed
                     (if ToBoolean (NewHires h) then NewHires h
                      else VNumber (S754_zero false))) /\
      map DashboardView.dc_title [metrics; rebal; train; hires]
      = ["Metrics Count"; "Rebalance Suggestions"; "Training Recommendations";
         "New Hires"].
Proof.
  intros cur d. do 4 eexists. split; [reflexivity|].
  cbn [DashboardView.DataCard DashboardView.dc_value tableSection].
  rewrite !rowsShown_SectionTable.
  split; [reflexivity|]. split; [reflexivity|]. split; [reflexivity|].
  split; [|split; [|split]].
  - intros c.
    assert (forall title items f,
               rowsShown (SectionTable title items f) = 0
               <-> SectionTable title items f = None) as Z.
    { intros title items f. destruct items as [[|first rest]|]; cbn;
        split; try reflexivity; discriminate. }
    destruct c; cbn [tableSection]; apply Z.
  - intros E. unfold DashboardView.newHiresOrZero. now rewrite E.
  - intros h E. unfold DashboardView.newHiresOrZero. now rewrite E.
  - reflexivity.
Qed.

(** The sample document: three metric rows, no rebalance rows, no hiring
    record. *)
Lemma X7_summary_cards_match_tables_witness :
  map DashboardView.dc_value (DashboardView.summaryCards sampleResult)
  = [DashboardView.Count 3; DashboardView.Count 0; DashboardView.Count 3;
     DashboardView.Passed (VNumber (S754_zero false))].
Proof.
  destruct (X7_summary_cards_match_tables INR sampleResult)
    as (m & r & t & h & E & Vm & Vr & Vt & _ & Hn & _).
  rewrite E. cbn [map]. rewrite Vm, Vr, Vt, (Hn eq_refl). reflexivity.
Defined.

(** X8: the currency toggle is an involution that alternates INR and USD
    and touches nothing else of the state; the toggle button always names
    the unit the next click selects. *)
Theorem X8_toggle_currency_involution `{JSHost} :
  forall st,
    CrepidDashboard.toggleCurrency (CrepidDashboard.toggleCurrency st) = st /\
    CrepidDashboard.currency (CrepidDashboard.toggleCurrency st)
    <> CrepidDashboard.currency st /\
    CrepidDashboard.data (CrepidDashboard.toggleCurrency st) = CrepidDashboard.data st /\
    CrepidDashboard.loading (CrepidDashboard.toggleCurrency st)
    = CrepidDashboard.loading st /\
    DashboardView.uploadButton (CrepidDashboard.toggleCurrency st)
    = DashboardView.uploadButton st /\
    (forall d,
        DashboardView.toggleLabel (DashboardView.renderBody (CrepidDashboard.currency st) d)
        = "Switch to "
          ++ match CrepidDashboard.currency (CrepidDashboard.toggleCurrency st) with
             | INR => "INR"
             | USD => "USD"
             end).
Proof.
  intros [r a s l d c]. unfold CrepidDashboard.toggleCurrency; cbn.
  destruct c; repeat split; try reflexivity; discriminate.
Qed.

(** X9: switching the currency leaves the three tables rendered without a
    formatter (rebalance, appraisal, risks) identical; in the other three it
    changes neither whether the table is rendered, nor its title, headers or
    number of rows, nor any cell's key or style, nor the value of any cell
    outside the currency columns. *)
Theorem X9_currency_changes_only_currency_cells `{JSHost} :
  forall d c,
    (c = Rebalance \/ c = Appraisal \/ c = Risks ->
     tableSection INR d c = tableSection USD d c) /\
    (tableSection INR d c = None <-> tableSection USD d c = None) /\
    (forall cardI,
        tableSection INR d c = Some cardI ->
        exists cardU,
          tableSection USD d c = Some cardU /\
          card_title cardU = card_title cardI /\
          card_headers cardU = card_headers cardI /\
          List.length (card_rows cardU) = List.length (card_rows cardI) /\
          forall i j cellI,
            cellAt cardI i j = Some cellI ->
            exists cellU,
              cellAt cardU i j = Some cellU /\
              cell_key cellU = cell_key cellI /\
              cell_style cellU = cell_style cellI /\
              (isCurrencyColumn (cell_key cellI) = false ->
               cell_value cellU = cell_value cellI)).
Proof.
  intros d c.
  assert (forall title items f g cardI,
             SectionTable title items f = Some cardI ->
             exists cardU,
               SectionTable title items g = Some cardU /\
               card_title cardU = card_title cardI /\
               card_headers cardU = card_headers cardI /\
               List.length (card_rows cardU) = List.length (card_rows cardI) /\
               forall i j cellI,
                 cellAt cardI i j = Some cellI ->
                 exists cellU,
                   cellAt cardU i j = Some cellU /\
                   cell_key cellU = cell_key cellI /\
                   cell_style cellU = cell_style cellI /\
                   (isCurrencyColumn (cell_key cellI) = false ->
                    cell_value cellU = cell_value cellI)) as G.
  { intros title items f g cardI E.
    destruct items as [[|first rest]|] eqn:I; try discriminate E.
    eexists. split; [reflexivity|].
    injection E as <-. cbn [card_title card_headers card_rows].
    split; [reflexivity|]. split; [reflexivity|].
    split; [cbn [map List.length]; now rewrite !length_map|].
    intros i j cellI C.
    destruct (cellAt_SectionTable title (Some (first :: rest)) f _ i j cellI
                eq_refl C)
      as (first' & rest' & item & col & [= <- <-] & Hi & Hj & ->).
    destruct (SectionTable_cell title first rest g i item j col Hi Hj)
      as (cardU & EU & _ & _ & CU).
    cbn [SectionTable] in EU. injection EU as <-.
    exists (renderCell g item col). split; [exact CU|].
    split; [reflexivity|]. split; [apply renderCell_style_formatter|].
    cbn [cell_key renderCell]. intros NC.
    now rewrite !renderCell_plain_value by exact NC. }
  split; [|split].
  - intros [-> | [-> | ->]]; reflexivity.
  - destruct c; cbn [tableSection]; rewrite !SectionTable_none_iff; reflexivity.
  - intros cardI E. destruct c; cbn [tableSection] in *; eapply G; exact E.
Qed.

Lemma X9_currency_changes_only_currency_cells_witness :
  exists cardI cardU cellI cellU,
    tableSection INR sampleResult Training = Some cardI /\
    tableSection USD sampleResult Training = Some cardU /\
    cellAt cardI 0 0 = Some cellI /\
    cellAt cardU 0 0 = Some cellU /\
    cell_value cellU = cell_value cellI.
Proof.
  destruct (X9_currency_changes_only_currency_cells sampleResult Training)
    as (_ & _ & G).
  destruct (tableSection INR sampleResult Training) as [cardI|] eqn:E;
    [|discriminate E].
  destruct (G cardI eq_refl) as (cardU & EU & _ & _ & _ & Cells).
  injection E as <-.
  destruct (Cells 0 0 _ eq_refl) as (cellU & CU & _ & _ & V).
  eexists _, cardU, _, cellU.
  split; [reflexivity|]. split; [exact EU|]. split; [reflexivity|].
  split; [exact CU|]. now apply V.
Defined.

(** ** ROI colours on arbitrary values *)

Lemma SFleb_trans (a b c : spec_float) :
  SFleb a b = true -> SFleb b c = true -> SFleb a c = true.
Proof.
  unfold SFleb.
  destruct a as [sa|sa| |sa ma ea], b as [sb|sb| |sb mb eb],
           c as [sc|sc| |sc mc ec]; cbn [SFcompare];
    try (destruct sa); try (destruct sb); try (destruct sc);
    try discriminate; try reflexivity;
    change (Pos.compare_cont Eq ?x ?y) with (Pos.compare x y);
    repeat match goal with
           | |- context [Z.compare ?x ?y] => destruct (Z.compare_spec x y)
           | |- context [Pos.compare ?x ?y] => destruct (Pos.compare_spec x y)
           end; cbn; try discriminate; try reflexivity; intros; lia.
Qed.

(** X10: a cell of an ROI column always shows the record's own value in
    black on one of the three backgrounds, chosen by the value's numeric
    conversion: red exactly when it is at most 7, amber exactly when it is
    above 7 (or not comparable) and at most 14, green otherwise. So null and
    both booleans are red, NaN is green like a missing value. A cell of any
    other column carries no inline style. *)
Theorem X10_roi_colour_by_numeric_conversion `{JSHost} :
  forall f item col,
    (isRoiColumn col = true ->
     let v := get item col in
     let cell := renderCell f item col in
     let le7 := Number.leb (ToNumber v) (Number.of_Z 7) in
     let le14 := Number.leb (ToNumber v) (Number.of_Z 14) in
     cell_value cell = v /\
     color (cell_style cell) = Some "#000" /\
     (backgroundColor (cell_style cell) = Some red400 <-> le7 = true) /\
     (backgroundColor (cell_style cell) = Some amber400
      <-> le7 = false /\ le14 = true) /\
     (backgroundColor (cell_style cell) = Some green400
      <-> le7 = false /\ le14 = false) /\
     (v = VNull \/ v = VBool false \/ v = VBool true ->
      backgroundColor (cell_style cell) = Some red400) /\
     (v = VNumber Number.NaN \/ v = VUndefined ->
      backgroundColor (cell_style cell) = Some green400)) /\
    (isRoiColumn col = false -> cell_style (renderCell f item col) = noStyle).
Proof.
  intros f item col. split.
  - intros R v cell le7 le14. subst cell.
    rewrite (renderCell_roi_value _ _ _ R), (renderCell_roi_style _ _ _ R).
    cbn [backgroundColor color]. unfold js_le. fold v. fold le7. fold le14.
    split; [reflexivity|]. split; [reflexivity|].
    split; [|split; [|split; [|split]]].
    + destruct le7, le14; split; intros E; try reflexivity; discriminate E.
    + destruct le7, le14; split; intros E; try (split; reflexivity);
        try discriminate E; destruct E; discriminate.
    + destruct le7, le14; split; intros E; try (split; reflexivity);
        try discriminate E; destruct E; discriminate.
    + subst le7 le14. intros [-> | [-> | ->]]; reflexivity.
    + subst le7 le14. intros [-> | ->]; reflexivity.
  - intros R. unfold renderCell; cbn [cell_style]. now rewrite R.
Qed.

(** A null ROI in the sample's column is red. *)
Lemma X10_roi_colour_by_numeric_conversion_witness :
  backgroundColor
    (cell_style (renderCell None [("Employee", VString "Asha"); ("ROI", VNull)] "ROI"))
  = Some red400.
Proof.
  destruct (X10_roi_colour_by_numeric_conversion
              None [("Employee", VString "Asha"); ("ROI", VNull)] "ROI")
    as (R & _).
  destruct (R eq_refl) as (_ & _ & _ & _ & _ & N & _).
  apply N. now left.
Defined.

(** X11: the ROI colouring is monotone: of two numeric ROI cells, the one
    with the larger number never gets a lower colour in the order red,
    amber, green. *)
Theorem X11_roi_colour_monotone `{JSHost} :
  forall f g item1 item2 col n1 n2,
    isRoiColumn col = true ->
    get item1 col = VNumber n1 ->
    get item2 col = VNumber n2 ->
    Number.leb n1 n2 = true ->
    exists k1 k2,
      colourRank (backgroundColor (cell_style (renderCell f item1 col))) = Some k1 /\
      colourRank (backgroundColor (cell_style (renderCell g item2 col))) = Some k2 /\
      k1 <= k2.
Proof.
  intros f g item1 item2 col n1 n2 R G1 G2 L.
  rewrite !(renderCell_roi_style _ _ _ R), G1, G2.
  cbn [backgroundColor]. unfold js_le; cbn [ToNumber].
  unfold Number.leb in *.
  destruct (SFleb n2 (Number.of_Z 7)) eqn:B7.
  - rewrite (SFleb_trans _ _ _ L B7). exists 0, 0. now repeat split.
  - destruct (SFleb n2 (Number.of_Z 14)) eqn:B14.
    + rewrite (SFleb_trans _ _ _ L B14).
      destruct (SFleb n1 (Number.of_Z 7));
        [exists 0, 1 | exists 1, 1]; repeat split; lia.
    + destruct (SFleb n1 (Number.of_Z 7));
        [exists 0, 2; repeat split; lia|].
      destruct (SFleb n1 (Number.of_Z 14));
        [exists 1, 2 | exists 2, 2]; repeat split; lia.
Qed.

(** 7 and 14.01 in the sample: red below green. *)
Lemma X11_roi_colour_monotone_witness :
  exists k1 k2,
    colourRank (backgroundColor
                  (cell_style (renderCell None (nth 0 sampleTraining []) "ROI")))
    = Some k1 /\
    colourRank (backgroundColor
                  (cell_style (renderCell None (nth 1 sampleTraining []) "ROI")))
    = Some k2 /\
    k1 <= k2.
Proof.
  apply (X11_roi_colour_monotone None None _ _ "ROI"
           (Number.of_Z 7) (Number.of_decimal 1401 2));
    vm_compute; reflexivity.
Defined.

(** ** Column names *)

Lemma prefix_iff (p s : string) :
  prefix p s = true <-> exists post, s = p ++ post.
Proof.
  revert s. induction p as [|c p IH]; intros s; destruct s as [|d s]; cbn.
  - split; [intros _; now exists "" | reflexivity].
  - split; [intros _; now exists (String d s) | reflexivity].
  - split; [discriminate | intros [post E]; discriminate E].
  - destruct (ascii_dec c d) as [<- | N].
    + rewrite IH. split; intros [post E]; exists post.
      * now rewrite E.
      * now injection E.
    + split; [discriminate|]. intros [post E]. injection E as E1 E2. congruence.
Qed.

Lemma includes_iff (s sub : string) :
  includes s sub = true <-> exists pre post, s = pre ++ sub ++ post.
Proof.
  induction s as [|c s IH]; cbn [includes].
  - destruct (prefix sub "") eqn:P.
    + split; [intros _ | reflexivity].
      apply prefix_iff in P. destruct P as [post E]. now exists "", post.
    + split; [discriminate|]. intros (pre & post & E).
      destruct pre; [|discriminate E]. cbn in E.
      assert (prefix sub "" = true) as T by (apply prefix_iff; now exists post).
      congruence.
  - destruct (prefix sub (String c s)) eqn:P.
    + split; [intros _ | reflexivity].
      apply prefix_iff in P. destruct P as [post E]. now exists "", post.
    + rewrite IH. split.
      * intros (pre & post & E). exists (String c pre), post. cbn. now rewrite E.
      * intros (pre & post & E). destruct pre as [|d pre].
        -- cbn in E.
           assert (prefix sub (String c s) = true) as T
               by (apply prefix_iff; now exists post).
           congruence.
        -- cbn in E. injection E as _ E. now exists pre, post.
Qed.

Lemma lower_ascii_idempotent (c : ascii) :
  lower_ascii (lower_ascii c) = lower_ascii c.
Proof.
  destruct c as [[|] [|] [|] [|] [|] [|] [|] [|]]; reflexivity.
Qed.

Lemma toLowerCase_idempotent (s : string) :
  toLowerCase (toLowerCase s) = toLowerCase s.
Proof.
  induction s as [|c s IH]; cbn; [reflexivity|].
  now rewrite lower_ascii_idempotent, IH.
Qed.

(** X12: a column is a currency column exactly when its lower-cased name
    contains one of "cost", "gain", "value", "salary" as a contiguous
    substring; the classification of a column as currency or ROI column
    depends only on the lower-cased name, and no column is both. *)
Theorem X12_column_classification :
  forall col,
    (isCurrencyColumn col = true <->
     exists kw pre post,
       In kw ["cost"; "gain"; "value"; "salary"] /\
       toLowerCase col = pre ++ kw ++ post) /\
    (forall col',
        toLowerCase col' = toLowerCase col ->
        isCurrencyColumn col' = isCurrencyColumn col /\
        isRoiColumn col' = isRoiColumn col) /\
    isCurrencyColumn (toLowerCase col) = isCurrencyColumn col /\
    isRoiColumn (toLowerCase col) = isRoiColumn col /\
    ~ (isCurrencyColumn col = true /\ isRoiColumn col = true).
Proof.
  intros col. split; [|split; [|split; [|split]]].
  - unfold isCurrencyColumn. rewrite !orb_true_iff, !includes_iff. split.
    + intros [[[(pre & post & E) | (pre & post & E)] | (pre & post & E)]
             | (pre & post & E)];
        [exists "cost" | exists "gain" | exists "value" | exists "salary"];
        exists pre, post; (split; [cbn; tauto | exact E]).
    + intros (kw & pre & post & I & E). cbn in I.
      destruct I as [<- | [<- | [<- | [<- | []]]]]; eauto 6.
  - intros col' E. unfold isCurrencyColumn, isRoiColumn. now rewrite E.
  - unfold isCurrencyColumn. now rewrite toLowerCase_idempotent.
  - unfold isRoiColumn. now rewrite toLowerCase_idempotent.
  - intros [C R]. rewrite (roi_column_not_currency _ R) in C. discriminate.
Qed.

Lemma X12_column_classification_witness :
  isCurrencyColumn "Training_Cost" = true.
Proof.
  apply (proj1 (X12_column_classification "Training_Cost")).
  exists "cost", "training_", "". split; [now left | reflexivity].
Defined.

(** ** More on the FAQ accordion *)

Lemma FAQ_none_expanded_beyond (faqs : list FAQSection.FAQ) (start k : nat) :
  start + List.length faqs <= k ->
  filter FAQSection.expanded (FAQSection.renderFrom (Some k) start faqs) = [].
Proof.
  revert start. induction faqs as [|faq rest IH]; intros start B; cbn;
    [reflexivity|].
  unfold FAQSection.expanded at 1; cbn. cbn in B.
  destruct (Nat.eqb_spec k start) as [->|N]; [lia|].
  apply IH. lia.
Qed.

Lemma FAQ_one_expanded_at (faqs : list FAQSection.FAQ) (start i : nat)
      (faq : FAQSection.FAQ) :
  nth_error faqs i = Some faq ->
  filter FAQSection.expanded (FAQSection.renderFrom (Some (start + i)) start faqs)
  = [FAQSection.renderItem (Some (start + i)) (start + i) faq].
Proof.
  revert start i. induction faqs as [|f rest IH]; intros start i E;
    [destruct i; discriminate E|].
  cbn [FAQSection.renderFrom filter].
  unfold FAQSection.expanded at 1; cbn [FAQSection.renderItem FAQSection.card_content].
  destruct i as [|i]; cbn in E.
  - injection E as ->. rewrite Nat.add_0_r.
    cbn [FAQSection.isOpen]. rewrite Nat.eqb_refl. f_equal.
    apply FAQ_expanded_count.
    + cbn. apply Nat.eqb_neq. lia.
    + intros j [= <-]. lia.
  - cbn [FAQSection.isOpen].
    destruct (Nat.eqb_spec (start + S i) start) as [F|_]; [lia|].
    rewrite Nat.add_succ_r. apply (IH (S start) i E).
Qed.

Lemma FAQ_render_In (openIndex : FAQSection.State) (faqs : list FAQSection.FAQ)
      (start : nat) (c : FAQSection.FAQCard) :
  In c (FAQSection.renderFrom openIndex start faqs) ->
  exists k faq,
    nth_error faqs k = Some faq /\
    c = FAQSection.renderItem openIndex (start + k) faq.
Proof.
  revert start. induction faqs as [|f rest IH]; intros start; cbn; [tauto|].
  intros [<- | I].
  - exists 0, f. now rewrite Nat.add_0_r.
  - destruct (IH (S start) I) as (k & faq & E & ->).
    exists (S k), faq. split; [exact E|]. now rewrite Nat.add_succ_r.
Qed.

(** X13: when the open index is that of an existing item, exactly that item
    is expanded, with its own question and answer and the chevron up; when
    the open index is null or beyond the list, no item is expanded. *)
Theorem X13_faq_open_item_shown :
  forall faqs i,
    (forall faq,
        nth_error faqs i = Some faq ->
        filter FAQSection.expanded (FAQSection.render (Some i) faqs)
        = [{| FAQSection.card_index := i;
              FAQSection.card_question := FAQSection.question faq;
              FAQSection.chevronUp := true;
              FAQSection.card_content := Some (FAQSection.answer faq) |}]) /\
    (nth_error faqs i = None ->
     filter FAQSection.expanded (FAQSection.render (Some i) faqs) = []) /\
    filter FAQSection.expanded (FAQSection.render None faqs) = [].
Proof.
  intros faqs i. split; [|split].
  - intros faq E. unfold FAQSection.render.
    pose proof (FAQ_one_expanded_at faqs 0 i faq E) as One.
    cbn [Nat.add] in One. rewrite One.
    unfold FAQSection.renderItem; cbn. now rewrite Nat.eqb_refl.
  - intros E. apply nth_error_None in E.
    apply FAQ_none_expanded_beyond. cbn. exact E.
  - apply (FAQ_expanded_count None faqs 0); [reflexivity | discriminate].
Qed.

(** The second of the dashboard's five questions opened. *)
Lemma X13_faq_open_item_shown_witness :
  map FAQSection.card_question
      (filter FAQSection.expanded
              (FAQSection.render (Some 1) DashboardView.dashboardFaqs))
  = ["What is WPI?"].
Proof.
  destruct (X13_faq_open_item_shown DashboardView.dashboardFaqs 1) as (O & _).
  rewrite (O _ eq_refl). reflexivity.
Defined.

(** X14: after any sequence of header clicks the open index, if there is
    one, is the index clicked last; a click on [k] opens [k] unless it was
    open, and two clicks on [k] in a row leave [k] open if it was and
    nothing open otherwise. *)
Theorem X14_faq_open_is_last_clicked :
  forall clicks,
    (forall k, FAQSection.afterClicks clicks = Some k ->
               exists before, clicks = (before ++ [k])%list) /\
    (forall k, FAQSection.afterClicks (clicks ++ [k])
               = if FAQSection.isOpen (FAQSection.afterClicks clicks) k
                 then None else Some k) /\
    (forall k, FAQSection.afterClicks (clicks ++ [k; k])
               = if FAQSection.isOpen (FAQSection.afterClicks clicks) k
                 then Some k else None).
Proof.
  intros clicks.
  assert (forall cs k, FAQSection.afterClicks (cs ++ [k])
                       = FAQSection.toggleFAQ (FAQSection.afterClicks cs) k) as Snoc.
  { intros cs k. unfold FAQSection.afterClicks. now rewrite fold_left_app. }
  split; [|split].
  - intros k. destruct clicks as [|c cs _] using rev_ind; [discriminate|].
    rewrite Snoc. unfold FAQSection.toggleFAQ.
    destruct (FAQSection.isOpen (FAQSection.afterClicks cs) c);
      [discriminate|].
    intros [= <-]. now exists cs.
  - intros k. now rewrite Snoc.
  - intros k. change [k; k] with ([k] ++ [k])%list.
    rewrite app_assoc, !Snoc. unfold FAQSection.toggleFAQ.
    destruct (FAQSection.isOpen (FAQSection.afterClicks clicks) k) eqn:O; cbn.
    + reflexivity.
    + now rewrite Nat.eqb_refl.
Qed.

Lemma X14_faq_open_is_last_clicked_witness :
  exists before, [2; 0; 0; 3] = (before ++ [3])%list.
Proof.
  destruct (X14_faq_open_is_last_clicked [2; 0; 0; 3]) as (L & _).
  apply L. reflexivity.
Defined.

(** X15: the accordion renders one item per FAQ, in order, with the FAQ's
    question and its position as index; an item's chevron is up exactly when
    its answer is shown, and a shown answer is always the answer of the FAQ
    at the item's index. *)
Theorem X15_faq_render_shape :
  forall openIndex faqs,
    map FAQSection.card_question (FAQSection.render openIndex faqs)
    = map FAQSection.question faqs /\
    List.length (FAQSection.render openIndex faqs) = List.length faqs /\
    (forall c,
        In c (FAQSection.render openIndex faqs) ->
        FAQSection.chevronUp c = FAQSection.expanded c /\
        exists faq,
          nth_error faqs (FAQSection.card_index c) = Some faq /\
          FAQSection.card_question c = FAQSection.question faq /\
          (forall a, FAQSection.card_content c = Some a ->
                     a = FAQSection.answer faq)).
Proof.
  intros openIndex faqs.
  assert (forall start,
             map FAQSection.card_question
                 (FAQSection.renderFrom openIndex start faqs)
             = map FAQSection.question faqs) as Q.
  { induction faqs as [|f rest IH]; intros start; cbn;
      [reflexivity | now rewrite IH]. }
  unfold FAQSection.render.
  split; [apply Q|]. split.
  - rewrite <- (length_map FAQSection.card_question), Q. apply length_map.
  - intros c I. apply FAQ_render_In in I.
    destruct I as (k & faq & E & ->). cbn.
    split.
    + unfold FAQSection.expanded; cbn.
      now destruct (FAQSection.isOpen openIndex k).
    + exists faq. split; [exact E|]. split; [reflexivity|].
      intros a. destruct (FAQSection.isOpen openIndex k); [|discriminate].
      now intros [= <-].
Qed.

Lemma X15_faq_render_shape_witness :
  let card := FAQSection.renderItem
                (Some 1) 1
                {| FAQSection.question := "What is WPI?";
                   FAQSection.answer := "WPI (Weighted Performance Index) is the ratio of NetValue to DollarValue, measuring efficiency of employee output." |} in
  In card (FAQSection.render (Some 1) DashboardView.dashboardFaqs) /\
  FAQSection.chevronUp card = FAQSection.expanded card.
Proof.
  intros card.
  assert (In card (FAQSection.render (Some 1) DashboardView.dashboardFaqs)) as I.
  { cbn. tauto. }
  destruct (X15_faq_render_shape (Some 1) DashboardView.dashboardFaqs)
    as (_ & _ & Cards).
  split; [exact I|]. exact (proj1 (Cards card I)).
Defined.

(** ** Sessions of the dashboard view *)

Lemma dashboard_upload_facts (net : Network) (st : CrepidDashboard.State) :
  let out := CrepidDashboard.handleUpload net st in
  (CrepidDashboard.loading (state_of out) = false \/ state_of out = st) /\
  CrepidDashboard.currency (state_of out) = CrepidDashboard.currency st /\
  (CrepidDashboard.data (state_of out) = CrepidDashboard.data st \/
   exists d, succeedsWith net d /\ CrepidDashboard.data (state_of out) = Some d) /\
  List.length (filter isFetch (trace_of out)) <= 1.
Proof.
  intros out. subst out.
  destruct (CrepidDashboard.rosterFile st) as [r|] eqn:Hr;
    [|rewrite dashboard_missing by auto; cbn; intuition].
  destruct (CrepidDashboard.activitiesFile st) as [a|] eqn:Ha;
    [|rewrite dashboard_missing by auto; cbn; intuition].
  destruct (CrepidDashboard.skillsFile st) as [s|] eqn:Hs;
    [|rewrite dashboard_missing by auto; cbn; intuition].
  rewrite (dashboard_run net st r a s Hr Ha Hs).
  destruct net as [res|e];
    [destruct (ok res) eqn:O; [destruct (json res) as [body|e] eqn:J|]|];
    cbn; try (intuition; fail).
  split; [now left|]. split; [reflexivity|]. split; [|lia].
  right. exists body. split; [|reflexivity]. now exists res.
Qed.

Lemma step_facts (ev : DashboardView.Event) (st0 : CrepidDashboard.State) :
  CrepidDashboard.loading st0 = false ->
  let st1 := snd (DashboardView.step ev st0) in
  CrepidDashboard.loading st1 = false /\
  (forall d, CrepidDashboard.data st1 = Some d ->
             CrepidDashboard.data st0 = Some d \/
             exists net, ev = DashboardView.ClickUpload net /\ succeedsWith net d) /\
  (CrepidDashboard.data st1 = None ->
   CrepidDashboard.data st0 = None /\
   CrepidDashboard.currency st1 = CrepidDashboard.currency st0) /\
  List.length (filter isFetch (fst (DashboardView.step ev st0)))
  <= List.length (DashboardView.answers [ev]).
Proof.
  intros L st1. subst st1.
  destruct ev as [f|f|f|net|]; cbn [DashboardView.step DashboardView.answers].
  - cbn. intuition.
  - cbn. intuition.
  - cbn. intuition.
  - rewrite L. cbn [fst snd].
    destruct (dashboard_upload_facts net st0) as (Ld & C & D & F).
    split; [destruct Ld as [Ld|Ld]; [exact Ld | now rewrite Ld]|].
    split; [|split; [|exact F]].
    + intros d E. destruct D as [D | (d' & S & D)].
      * left. now rewrite <- D.
      * right. exists net. split; [reflexivity|]. congruence.
    + intros E. destruct D as [D | (d' & S & D)]; [|congruence].
      split; [now rewrite <- D | exact C].
  - destruct (CrepidDashboard.data st0) as [d|] eqn:D; cbn; rewrite ?D;
      intuition; discriminate.
Qed.

Lemma run_facts (events : list DashboardView.Event) :
  forall st0,
    CrepidDashboard.loading st0 = false ->
    let st := snd (DashboardView.run events st0) in
    CrepidDashboard.loading st = false /\
    (forall d, CrepidDashboard.data st = Some d ->
               CrepidDashboard.data st0 = Some d \/
               exists net, In net (DashboardView.answers events) /\ succeedsWith net d) /\
    (CrepidDashboard.data st = None ->
     CrepidDashboard.data st0 = None /\
     CrepidDashboard.currency st = CrepidDashboard.currency st0) /\
    List.length (filter isFetch (fst (DashboardView.run events st0)))
    <= List.length (DashboardView.answers events).
Proof.
  induction events as [|ev rest IH]; intros st0 L; cbn [DashboardView.run].
  - cbn. intuition.
  - destruct (step_facts ev st0 L) as (L1 & D1 & N1 & F1).
    destruct (DashboardView.step ev st0) as [tr1 st1] eqn:S1. cbn [fst snd] in *.
    destruct (IH st1 L1) as (L2 & D2 & N2 & F2).
    destruct (DashboardView.run rest st1) as [tr2 st2] eqn:R2. cbn [fst snd] in *.
    assert (DashboardView.answers (ev :: rest)
            = (DashboardView.answers [ev] ++ DashboardView.answers rest)%list) as A.
    { destruct ev; reflexivity. }
    split; [exact L2|]. split; [|split].
    + intros d E. destruct (D2 d E) as [E1 | (net & I & S)].
      * destruct (D1 d E1) as [E0 | (net & -> & S)]; [now left|].
        right. exists net. split; [now left | exact S].
      * right. exists net. split; [|exact S].
        rewrite A. apply in_or_app. now right.
    + intros E. destruct (N2 E) as (E1 & C1). destruct (N1 E1) as (E0 & C0).
      split; [exact E0 | congruence].
    + rewrite A, filter_app, !length_app. lia.
Qed.

(** X16: in any session that starts from the initial state (file
    selections, upload clicks answered in any way, toggle clicks), once the
    handlers have run the loading flag is false and the upload button is
    enabled; the data shown is always the parsed body of one of the
    session's successful answers; as long as there is no data nothing is
    rendered below the upload section and the currency is still INR; and
    there are never more requests than upload clicks. *)
Theorem X16_session_invariants `{JSHost} :
  forall events,
    let st := snd (DashboardView.run events CrepidDashboard.initial) in
    let tr := fst (DashboardView.run events CrepidDashboard.initial) in
    CrepidDashboard.loading st = false /\
    DashboardView.uploadButton st
    = {| DashboardView.disabled := false;
         DashboardView.label := "Upload & Compute" |} /\
    (forall d, CrepidDashboard.data st = Some d ->
               exists net, In net (DashboardView.answers events) /\ succeedsWith net d) /\
    (forall body,
        snd (DashboardView.render st) = Some body ->
        exists net d,
          In net (DashboardView.answers events) /\ succeedsWith net d /\
          body = DashboardView.renderBody (CrepidDashboard.currency st) d) /\
    (CrepidDashboard.data st = None ->
     snd (DashboardView.render st) = None /\ CrepidDashboard.currency st = INR) /\
    List.length (filter isFetch tr) <= List.length (DashboardView.answers events).
Proof.
  intros events st tr. subst st tr.
  destruct (run_facts events CrepidDashboard.initial eq_refl) as (L & D & N & F).
  assert (forall d,
             CrepidDashboard.data (snd (DashboardView.run events CrepidDashboard.initial))
             = Some d ->
             exists net, In net (DashboardView.answers events) /\ succeedsWith net d)
    as D'.
  { intros d E. destruct (D d E) as [E0 | X]; [discriminate E0 | exact X]. }
  split; [exact L|].
  split; [unfold DashboardView.uploadButton; now rewrite L|].
  split; [exact D'|]. split; [|split; [|exact F]].
  - intros body. unfold DashboardView.render; cbn [snd].
    destruct (CrepidDashboard.data _) as [d|] eqn:E; [|discriminate].
    intros [= <-]. destruct (D' d eq_refl) as (net & I & S).
    now exists net, d.
  - intros E. destruct (N E) as (_ & C).
    unfold DashboardView.render; cbn [snd]. rewrite E.
    split; [reflexivity | exact C].
Qed.

(** The sample session ends with the second answer's body shown. *)
Lemma X16_session_invariants_witness :
  CrepidDashboard.data (snd (DashboardView.run sampleSession CrepidDashboard.initial))
  = Some sampleResult /\
  exists net, In net (DashboardView.answers sampleSession) /\
              succeedsWith net sampleResult.
Proof.
  destruct (X16_session_invariants sampleSession) as (_ & _ & D & _).
  split; [reflexivity|]. apply D. reflexivity.
Defined.

(** X17: the request carries the files selected last, whatever the order
    of the three selections: each input's selection replaces its previous
    one, the three selections commute and touch neither data, loading nor
    currency; with all three selected the click issues the request with
    those files, and cancelling any one selection afterwards blocks it. *)
Theorem X17_selected_files_reach_request :
  forall st net r a s,
    let chosen := DashboardView.setSkillsFile (Some s)
                    (DashboardView.setActivitiesFile (Some a)
                       (DashboardView.setRosterFile (Some r) st)) in
    filter isFetch (trace_of (CrepidDashboard.handleUpload net chosen))
    = [Fetch backendUrl "POST" [("roster", r); ("activities", a); ("skills", s)]] /\
    DashboardView.setRosterFile (Some r)
      (DashboardView.setSkillsFile (Some s)
         (DashboardView.setActivitiesFile (Some a) st)) = chosen /\
    DashboardView.setActivitiesFile (Some a)
      (DashboardView.setRosterFile (Some r)
         (DashboardView.setSkillsFile (Some s) st)) = chosen /\
    (forall f, DashboardView.setRosterFile (Some r) (DashboardView.setRosterFile f st)
               = DashboardView.setRosterFile (Some r) st) /\
    (forall f g,
        DashboardView.setActivitiesFile g (DashboardView.setActivitiesFile f st)
        = DashboardView.setActivitiesFile g st /\
        DashboardView.setSkillsFile g (DashboardView.setSkillsFile f st)
        = DashboardView.setSkillsFile g st /\
        DashboardView.setRosterFile g (DashboardView.setRosterFile f st)
        = DashboardView.setRosterFile g st) /\
    CrepidDashboard.data chosen = CrepidDashboard.data st /\
    CrepidDashboard.loading chosen = CrepidDashboard.loading st /\
    CrepidDashboard.currency chosen = CrepidDashboard.currency st /\
    (forall cancelled,
        cancelled = DashboardView.setRosterFile None chosen \/
        cancelled = DashboardView.setActivitiesFile None chosen \/
        cancelled = DashboardView.setSkillsFile None chosen ->
        CrepidDashboard.handleUpload net cancelled
        = ([Alert "Please select all three files!"], cancelled, Ok tt)).
Proof.
  intros st net r a s chosen.
  split.
  - rewrite (dashboard_run net chosen r a s eq_refl eq_refl eq_refl).
    destruct net as [res|e]; [destruct (ok res); [destruct (json res)|]|];
      reflexivity.
  - subst chosen. repeat split.
    intros cancelled [-> | [-> | ->]]; apply dashboard_missing; cbn; auto.
Qed.

Lemma X17_selected_files_reach_request_witness :
  let cancelled := DashboardView.setSkillsFile None populatedDashboard in
  CrepidDashboard.handleUpload serverError cancelled
  = ([Alert "Please select all three files!"], cancelled, Ok tt).
Proof.
  intros cancelled.
  destruct (X17_selected_files_reach_request
              populatedDashboard serverError
              (fst (fst sampleFiles)) (snd (fst sampleFiles)) (snd sampleFiles))
    as (_ & _ & _ & _ & _ & _ & _ & _ & B).
  apply B. right. right. reflexivity.
Defined.

(** ** Sessions of the uploader form *)

Lemma uploader_submit_facts (net : Network) (st : CSVUploader.State)
      (ev : CSVUploader.SubmitEvent) :
  let out := CSVUploader.handleUpload ev net st in
  (CSVUploader.loading (state_of out) = false \/ state_of out = st) /\
  (CSVUploader.dashboardData (state_of out) = CSVUploader.dashboardData st \/
   exists d, succeedsWith net d /\
             CSVUploader.dashboardData (state_of out) = Some d) /\
  List.length (filter isAlert (trace_of out)) = 1 /\
  List.length (filter isFetch (trace_of out)) <= 1.
Proof.
  intros out. subst out.
  destruct (CSVUploader.roster ev) as [r|] eqn:Hr;
    [|rewrite uploader_missing by auto; cbn; intuition].
  destruct (CSVUploader.activities ev) as [a|] eqn:Ha;
    [|rewrite uploader_missing by auto; cbn; intuition].
  destruct (CSVUploader.skill_library ev) as [s|] eqn:Hs;
    [|rewrite uploader_missing by auto; cbn; intuition].
  rewrite (uploader_run net st ev r a s Hr Ha Hs).
  destruct net as [res|e];
    [destruct (ok res) eqn:O; [destruct (json res) as [body|e] eqn:J|]|];
    cbn; try (intuition; fail).
  split; [now left|]. split; [|split; [reflexivity | lia]].
  right. exists body. split; [|reflexivity]. now exists res.
Qed.

Lemma uploader_run_facts (submits : list (CSVUploader.SubmitEvent * Network)) :
  forall st0,
    CSVUploader.loading st0 = false ->
    let st := snd (UploaderSession.run submits st0) in
    let tr := fst (UploaderSession.run submits st0) in
    CSVUploader.loading st = false /\
    (forall d, CSVUploader.dashboardData st = Some d ->
               CSVUploader.dashboardData st0 = Some d \/
               exists net, In net (map snd submits) /\ succeedsWith net d) /\
    (CSVUploader.dashboardData st = None -> CSVUploader.dashboardData st0 = None) /\
    List.length (filter isAlert tr) = List.length submits /\
    List.length (filter isFetch tr) <= List.length submits.
Proof.
  induction submits as [|[ev net] rest IH]; intros st0 L;
    cbn [UploaderSession.run].
  - cbn. intuition.
  - destruct (uploader_submit_facts net st0 ev) as (L1 & D1 & A1 & F1).
    assert (CSVUploader.loading (state_of (CSVUploader.handleUpload ev net st0))
            = false) as L1'.
    { destruct L1 as [L1|L1]; [exact L1 | now rewrite L1]. }
    destruct (IH _ L1') as (L2 & D2 & N2 & A2 & F2).
    destruct (UploaderSession.run rest
                (state_of (CSVUploader.handleUpload ev net st0)))
      as [tr2 st2] eqn:R2.
    cbn [fst snd map List.length] in *.
    split; [exact L2|]. split; [|split; [|split]].
    + intros d E. destruct (D2 d E) as [E1 | (net' & I & S)].
      * destruct D1 as [D1 | (d' & S & D1)].
        -- left. congruence.
        -- right. exists net. split; [now left|]. congruence.
      * right. exists net'. split; [now right | exact S].
    + intros E. specialize (N2 E).
      destruct D1 as [D1 | (d' & S & D1)]; congruence.
    + rewrite filter_app, length_app. lia.
    + rewrite filter_app, length_app. lia.
Qed.

(** X18: in any sequence of submits of the uploader form, starting from the
    empty shared context, every submit shows exactly one alert (missing
    files, success or failure) and issues at most one request; afterwards
    loading is false, and the shared dashboard data is either still absent or
    the parsed body of one of the successful answers. *)
Theorem X18_uploader_session_invariants :
  forall submits,
    let st := snd (UploaderSession.run submits CSVUploader.initial) in
    let tr := fst (UploaderSession.run submits CSVUploader.initial) in
    CSVUploader.loading st = false /\
    (forall d, CSVUploader.dashboardData st = Some d ->
               exists net, In net (map snd submits) /\ succeedsWith net d) /\
    List.length (filter isAlert tr) = List.length submits /\
    List.length (filter isFetch tr) <= List.length submits /\
    (forall ev net st0,
        List.length (filter isAlert (trace_of (CSVUploader.handleUpload ev net st0)))
        = 1 /\
        List.length (filter isFetch (trace_of (CSVUploader.handleUpload ev net st0)))
        <= 1).
Proof.
  intros submits st tr. subst st tr.
  destruct (uploader_run_facts submits CSVUploader.initial eq_refl)
    as (L & D & _ & A & F).
  split; [exact L|]. split; [|split; [exact A | split; [exact F|]]].
  - intros d E. destruct (D d E) as [E0 | X]; [discriminate E0 | exact X].
  - intros ev net st0.
    destruct (uploader_submit_facts net st0 ev) as (_ & _ & A1 & F1).
    now split.
Qed.

(** A failed and a successful submit: two alerts, the body stored. *)
Lemma X18_uploader_session_invariants_witness :
  List.length (filter isAlert
                      (fst (UploaderSession.run sampleSubmits CSVUploader.initial)))
  = 2 /\
  exists net, In net (map snd sampleSubmits) /\ succeedsWith net sampleResult.
Proof.
  destruct (X18_uploader_session_invariants sampleSubmits) as (_ & D & A & _).
  split; [exact A|]. apply D. reflexivity.
Defined.
